(** * A/B testing simulation: a shallow embedding of
    [scripts/ab_testing_simulation.py] and the properties of its
    conversion model, session generator and summary aggregation.

    Python [float] is IEEE binary64, so probabilities, ratings and noise
    are Rocq's primitive floats; Python [int] is [Z]; [str] is [string];
    a [dict] read by key is a [gmap]; a [dict] that is iterated keeps its
    insertion order and is an association list.  An exception is a
    [Raise] result. *)

From Stdlib Require Import ZArith QArith Lqa String Ascii List Lia.
From Stdlib Require Import Floats.
From stdpp Require Import base option list gmap strings pretty.

Set Warnings "-inexact-float".
Set Default Proof Using "Type".
Local Open Scope Z_scope.

(** ** Python results *)

Inductive PyError : Type :=
| KeyError (key : string)
| IndexError
| ValueError
| OverflowError
| DatabaseError.

Inductive result (A : Type) : Type :=
| Ok (a : A)
| Raise (e : PyError).
Arguments Ok {A} a.
Arguments Raise {A} e.

Definition rbind {A B} (r : result A) (k : A → result B) : result B :=
  match r with
  | Ok a => k a
  | Raise e => Raise e
  end.

(** The first value bound to [k] in an association list. *)
Fixpoint assoc {V} (table : list (string * V)) (k : string) (dflt : V) : V :=
  match table with
  | [] => dflt
  | (k', v) :: rest => if String.eqb k k' then v else assoc rest k dflt
  end.

(** ** Python builtins on floats *)

Module Py.

(** [max(a, b)] keeps [a] unless [b > a]; [min(a, b)] keeps [a] unless
    [b < a] (the comparisons CPython performs, which matter for NaN). *)
Definition max (a b : float) : float := if (a <? b)%float then b else a.
Definition min (a b : float) : float := if (b <? a)%float then b else a.

(** [d[k]] on a dict: [KeyError] when the key is missing. *)
Definition subscript {V} (d : gmap string V) (k : string) : result V :=
  match d !! k with
  | Some v => Ok v
  | None => Raise (KeyError k)
  end.

(** [d.get(k, dflt)] *)
Definition get {V} (d : gmap string V) (k : string) (dflt : V) : V :=
  default dflt (d !! k).

(** [int(x)]: truncation toward zero of the exact value of [x];
    [ValueError] on NaN and [OverflowError] on an infinity. *)
Definition int (x : float) : result Z :=
  match Prim2SF x with
  | S754_zero _ => Ok 0
  | S754_finite s m e =>
      let v := if (0 <=? e)%Z then Z.pos m * 2 ^ e else Z.pos m / 2 ^ (- e) in
      Ok (if s then - v else v)
  | S754_infinity _ => Raise OverflowError
  | S754_nan => Raise ValueError
  end.

(** The integer nearest to [n / d] (for [0 < d]), ties to even. *)
Definition div_half_even (n d : Z) : Z :=
  let q := n / d in
  let r := n mod d in
  match (2 * r ?= d)%Z with
  | Lt => q
  | Gt => q + 1
  | Eq => if Z.even q then q else q + 1
  end.

(** [round(x, 1)]: the exact value of [x] is rounded to one decimal
    (ties to even), and the double nearest to that decimal is returned;
    integers, zeros, NaN and infinities round to themselves. *)
Definition round1 (x : float) : float :=
  match Prim2SF x with
  | S754_finite s m e =>
      if (0 <=? e)%Z then x
      else
        match div_half_even (10 * Z.pos m) (2 ^ (- e)) with
        | Z.pos tenths =>
            SF2Prim (SFdiv prec emax (S754_finite s tenths 0)
                                     (S754_finite false 10 0))
        | _ => SF2Prim (S754_zero s)
        end
  | _ => x
  end.

End Py.

(** ** The variant catalog: [generate_test_variants] *)

Record VariantInfo : Type := {
  name : string;
  description : string }.

Record TestInfo : Type := {
  test_id : string;
  test_name : string;
  variants : list (string * VariantInfo) }.

Definition generate_test_variants : list (string * TestInfo) :=
  [ ("icon_design_test",
     {| test_id := "icon_design_001";
        test_name := "App Icon Design Test";
        variants :=
          [ ("control", {| name := "Original Icon";
                           description := "Current app icon design" |});
            ("variant_a", {| name := "Minimalist Icon";
                             description := "Clean, minimalist icon design" |});
            ("variant_b", {| name := "Colorful Icon";
                             description := "Bright, colorful icon design" |}) ] |});
    ("description_test",
     {| test_id := "description_002";
        test_name := "App Description Length Test";
        variants :=
          [ ("control", {| name := "Short Description";
                           description := "Concise app description (50-100 words)" |});
            ("variant_a", {| name := "Detailed Description";
                             description := "Comprehensive app description (200-300 words)" |}) ] |});
    ("pricing_test",
     {| test_id := "pricing_003";
        test_name := "Pricing Strategy Test";
        variants :=
          [ ("control", {| name := "Free";
                           description := "Completely free app" |});
            ("variant_a", {| name := "Freemium";
                             description := "Free with in-app purchases" |});
            ("variant_b", {| name := "Paid";
                             description := "One-time purchase ($2.99)" |}) ] |});
    ("screenshots_test",
     {| test_id := "screenshots_004";
        test_name := "Screenshot Count Test";
        variants :=
          [ ("control", {| name := "3 Screenshots";
                           description := "App store listing with 3 screenshots" |});
            ("variant_a", {| name := "5 Screenshots";
                             description := "App store listing with 5 screenshots" |}) ] |}) ].

(** ** The conversion probability model *)

Definition age_multipliers : gmap string float :=
  list_to_map
    [ ("18-24", 1.2%float); ("25-34", 1.1%float); ("35-44", 1.0%float);
      ("45-54", 0.9%float); ("55+", 0.8%float) ].

Definition device_multipliers : gmap string float :=
  list_to_map
    [ ("iPhone", 1.0%float); ("iPad", 0.9%float);
      ("Apple Watch", 0.7%float); ("Mac", 0.6%float) ].

(** The value of [base_prob] when the [return] statement is reached,
    before [min(0.95, max(0.01, base_prob))]. *)
Definition conversion_base_prob
    (user_tests : gmap string string) (age_group device_type : string)
  : result float :=
  let base_prob := 0.15%float in
  rbind (Py.subscript user_tests "icon_design_test") (λ icon,
  let base_prob :=
    if String.eqb icon "variant_a" then (base_prob + 0.02)%float
    else if String.eqb icon "variant_b" then (base_prob + 0.035)%float
    else base_prob in
  rbind (Py.subscript user_tests "description_test") (λ descr,
  let base_prob :=
    if String.eqb descr "variant_a" then (base_prob + 0.025)%float
    else base_prob in
  rbind (Py.subscript user_tests "pricing_test") (λ pricing,
  let base_prob :=
    if String.eqb pricing "control" then (base_prob + 0.08)%float
    else if String.eqb pricing "variant_a" then (base_prob + 0.04)%float
    else base_prob in
  rbind (Py.subscript user_tests "screenshots_test") (λ shots,
  let base_prob :=
    if String.eqb shots "variant_a" then (base_prob + 0.015)%float
    else base_prob in
  let base_prob := (base_prob * Py.get age_multipliers age_group 1.0)%float in
  let base_prob := (base_prob * Py.get device_multipliers device_type 1.0)%float in
  Ok base_prob)))).

Definition calculate_conversion_probability
    (user_tests : gmap string string) (age_group device_type : string)
  : result float :=
  rbind (conversion_base_prob user_tests age_group device_type) (λ base_prob,
  Ok (Py.min 0.95 (Py.max 0.01 base_prob))).

(** ** More builtins: [float(int)], [str.title], [datetime] *)

Module PyLib.

(** The conversion of an [int] to a [float] (as NumPy does for the
    [loc] argument): correctly rounded, [OverflowError] beyond the
    range of a double. *)
Definition float (z : Z) : result PrimFloat.float :=
  match binary_normalize prec emax z 0 false with
  | S754_infinity _ => Raise OverflowError
  | sf => Ok (SF2Prim sf)
  end.

Definition is_lower (c : ascii) : bool :=
  let n := nat_of_ascii c in (97 <=? n)%nat && (n <=? 122)%nat.
Definition is_upper (c : ascii) : bool :=
  let n := nat_of_ascii c in (65 <=? n)%nat && (n <=? 90)%nat.
Definition to_upper (c : ascii) : ascii :=
  if is_lower c then ascii_of_nat (nat_of_ascii c - 32) else c.
Definition to_lower (c : ascii) : ascii :=
  if is_upper c then ascii_of_nat (nat_of_ascii c + 32) else c.

(** [s.title()] on ASCII text: a letter that follows a letter is
    lowered, any other letter is raised. *)
Fixpoint title_from (prev_cased : bool) (s : string) : string :=
  match s with
  | EmptyString => EmptyString
  | String c rest =>
      if is_lower c || is_upper c
      then String (if prev_cased then to_lower c else to_upper c)
                  (title_from true rest)
      else String c (title_from false rest)
  end.
Definition title (s : string) : string := title_from false s.

(** A naive [datetime] is its number of microseconds since
    0001-01-01T00:00:00; the type ends with year 9999. *)
Definition datetime : Type := Z.
Definition datetime_max : Z := 3652059 * 86400000000.
Definition datetime_ok (t : Z) : bool := (0 <=? t) && (t <? datetime_max).

(** [t - timedelta(days=d)]: the [timedelta] constructor and the
    subtraction each raise [OverflowError] out of range. *)
Definition sub_days (t : datetime) (d : Z) : result datetime :=
  if (Z.abs d <=? 999999999)
  then let r := t - d * 86400000000 in
       if datetime_ok r then Ok r else Raise OverflowError
  else Raise OverflowError.

End PyLib.

(** ** External collaborators

    The generators behind [random], [numpy.random] and [Faker], the
    operating system's entropy behind [uuid.uuid4] and the wall clock are
    not part of the program.  Each is a state type with the calls the
    program makes on it: a call returns a value and the next state (it
    does not raise), and the laws are the documented ranges of the
    results. *)

Definition is_finite (x : float) : bool :=
  match Prim2SF x with
  | S754_zero _ | S754_finite _ _ _ => true
  | S754_infinity _ | S754_nan => false
  end.

Class RandomModule (G : Type) : Type := {
  random_seed : Z → G;
  random_random : G → float * G;
  random_uniform : float → float → G → float * G;
  (** [random.randint(a, b)] for [a <= b] *)
  random_randint : Z → Z → G → Z * G;
  (** [random.choice(seq)] for a non-empty [seq] *)
  random_choice : list string → G → string * G;
  (** [random.choices(population, weights)[0]] for a non-empty population *)
  random_choices : list string → list Z → G → string * G;
  random_randint_range a b g :
    a ≤ b → a ≤ (random_randint a b g).1 ≤ b;
  random_choice_elem seq g :
    seq ≠ [] → (random_choice seq g).1 ∈ seq;
  random_choices_elem population weights g :
    population ≠ [] → (random_choices population weights g).1 ∈ population }.

Class NumpyRandom (N : Type) : Type := {
  np_random_seed : Z → N;
  np_random_normal : float → float → N → float * N;
  np_random_normal_finite loc scale n :
    is_finite loc = true → is_finite scale = true →
    is_finite (np_random_normal loc scale n).1 = true }.

Class FakerProvider (F : Type) : Type := {
  faker_seed : Z → F;
  fake_date_time_between : PyLib.datetime → PyLib.datetime → F → PyLib.datetime * F;
  fake_company : F → string * F;
  fake_word : F → string * F }.

Class OsEntropy (E : Type) : Type := {
  uuid_uuid4 : E → string * E }.

Class WallClock (C : Type) : Type := {
  datetime_now : C → PyLib.datetime * C }.

(** ** Records and tables *)

(** One element of [sessions]: the dict appended per user, which is
    also one row of the DataFrame. *)
Record SessionRecord : Type := {
  user_id : string;
  session_date : PyLib.datetime;
  app_name : string;
  app_genre : string;
  age_group : string;
  device_type : string;
  country : string;
  icon_design_variant : string;
  description_variant : string;
  pricing_variant : string;
  screenshots_variant : string;
  time_spent_seconds : Z;
  converted : bool;
  rating : option float;
  session_id : string }.

(** A value of PostgreSQL's type [numeric]: a number, or the special
    value NaN, which a [DECIMAL(p,s)] column accepts whatever [p] and [s]
    are. *)
Inductive Numeric : Type :=
  | Num (q : Q)
  | NumericNaN.

(** A row of [ab_test_sessions], restricted to the columns that
    [generate_summary_statistics] reads.  [rating] is a [DECIMAL(2,1)]
    without [NOT NULL]: it holds NULL, a number or NaN.  The rows get
    there through [insert_session_data]: [pd.DataFrame(sessions)] makes
    [rating] a float64 column as soon as one record has a rating, with
    NaN where [rating] is [None]; [df.to_numpy()] hands these NaN to
    psycopg2, which sends ['NaN'::float]; so a session without rating,
    inserted beside one with a rating, has NaN in the table, not
    NULL. *)
Record SessionRow : Type := {
  row_icon_design_variant : string;
  row_description_variant : string;
  row_pricing_variant : string;
  row_screenshots_variant : string;
  row_time_spent_seconds : Z;
  row_converted : bool;
  row_rating : option Numeric }.

(** A row of [ab_test_summary], with the values of the [SELECT] list
    (the rounding to the scale of each column is not applied). *)
Record SummaryRow : Type := {
  sum_test_name : string;
  variant_key : string;
  total_users : Z;
  conversions : Z;
  conversion_rate : Q;
  avg_time_spent : Q;
  avg_rating : option Numeric }.

Record Database : Type := {
  ab_test_sessions : list SessionRow;
  ab_test_summary : list SummaryRow }.

(** ** The summary query

    [SELECT ... FROM ab_test_sessions GROUP BY variant_column], with
    PostgreSQL's aggregates: [COUNT( * )] counts rows, [SUM] adds, [AVG]
    skips NULL inputs, is NULL when no input is left, and is NaN when
    one of the inputs is NaN. *)

Module Sql.

(** Adds a row to the group of its key; a new key opens a group. *)
Fixpoint group_add (k : string) (r : SessionRow)
    (groups : list (string * list SessionRow))
  : list (string * list SessionRow) :=
  match groups with
  | [] => [(k, [r])]
  | (k', rs) :: rest =>
      if String.eqb k k' then (k', rs ++ [r]) :: rest
      else (k', rs) :: group_add k r rest
  end.

Definition group_by (key : SessionRow → string) (rows : list SessionRow)
  : list (string * list SessionRow) :=
  fold_left (λ groups r, group_add (key r) r groups) rows [].

Definition count (rows : list SessionRow) : Z := Z.of_nat (length rows).

Definition sum (vals : list Z) : Z := fold_left Z.add vals 0.

(** [AVG] over an expression that cannot be NaN (a [CASE] between two
    literals, an integer cast to [decimal]).  One pass keeps the sum and
    the number of the inputs that are not NULL; the division happens at
    the end. *)
Definition avg_step (acc : Q * Z) (v : option Q) : Q * Z :=
  match v with
  | Some q => (Qplus acc.1 q, acc.2 + 1)
  | None => acc
  end.

Definition avg (vals : list (option Q)) : option Q :=
  let '(total, n) := fold_left avg_step vals (0%Q, 0) in
  if (n =? 0) then None else Some (Qdiv total (inject_Z n)).

(** [AVG] over a [numeric] column.  The pass keeps the sum of the
    numbers, the number of the inputs that are not NULL and, among
    them, the number of NaN; with a NaN among the inputs the result is
    NaN. *)
Definition avg_numeric_step (acc : Q * Z * Z) (v : option Numeric)
  : Q * Z * Z :=
  let '(total, n, nans) := acc in
  match v with
  | Some (Num q) => (Qplus total q, n + 1, nans)
  | Some NumericNaN => (total, n + 1, nans + 1)
  | None => acc
  end.

Definition avg_numeric (vals : list (option Numeric)) : option Numeric :=
  let '(total, n, nans) := fold_left avg_numeric_step vals (0%Q, 0, 0) in
  if (n =? 0) then None
  else if (0 <? nans) then Some NumericNaN
  else Some (Num (Qdiv total (inject_Z n))).

End Sql.

(** The columns of the [SELECT] list for one group. [conversion_rate]
    and [avg_time_spent] go to [NOT NULL] columns: a NULL there fails the
    statement. *)
Definition summary_row (test_name variant : string) (group : list SessionRow)
  : result SummaryRow :=
  let converted_flags := map row_converted group in
  match Sql.avg (map (λ c : bool, Some (if c then 1%Q else 0%Q)) converted_flags),
        Sql.avg (map (λ r, Some (inject_Z (row_time_spent_seconds r))) group) with
  | Some rate, Some time =>
      Ok {| sum_test_name := test_name;
            variant_key := variant;
            total_users := Sql.count group;
            conversions :=
              Sql.sum (map (λ c : bool, if c then 1 else 0) converted_flags);
            conversion_rate := rate;
            avg_time_spent := time;
            avg_rating := Sql.avg_numeric (map row_rating group) |}
  | _, _ => Raise DatabaseError
  end.

Fixpoint summary_rows (test_name : string)
    (groups : list (string * list SessionRow)) : result (list SummaryRow) :=
  match groups with
  | [] => Ok []
  | (variant, group) :: rest =>
      rbind (summary_row test_name variant group) (λ row,
      rbind (summary_rows test_name rest) (λ rows,
      Ok (row :: rows)))
  end.

(** The rows that one [INSERT ... SELECT] of
    [generate_summary_statistics] computes. *)
Definition summary_select (test_name : string)
    (variant_column : SessionRow → string) (sessions : list SessionRow)
  : result (list SummaryRow) :=
  summary_rows test_name (Sql.group_by variant_column sessions).

(** [PRIMARY KEY (test_name, variant_key)] on [ab_test_summary]: an
    [INSERT] that would leave two rows with one key fails. *)
Definition summary_key (r : SummaryRow) : string * string :=
  (sum_test_name r, variant_key r).

Definition summary_insert (table new_rows : list SummaryRow)
  : result (list SummaryRow) :=
  if bool_decide (NoDup (summary_key <$> (table ++ new_rows)))
  then Ok (table ++ new_rows)
  else Raise DatabaseError.

(** The list [tests] of [generate_summary_statistics]: the display name
    and the grouping column. *)
Definition summary_tests : list (string * (SessionRow → string)) :=
  [ ("App Icon Design Test", row_icon_design_variant);
    ("App Description Length Test", row_description_variant);
    ("Pricing Strategy Test", row_pricing_variant);
    ("Screenshot Count Test", row_screenshots_variant) ].

(** The loop of [generate_summary_statistics] on the two tables. *)
Fixpoint summary_statements (tests : list (string * (SessionRow → string)))
    (db : Database) : result Database :=
  match tests with
  | [] => Ok db
  | (test_name, variant_column) :: rest =>
      rbind (summary_select test_name variant_column (ab_test_sessions db))
        (λ new_rows,
      rbind (summary_insert (ab_test_summary db) new_rows) (λ table,
      summary_statements rest
        {| ab_test_sessions := ab_test_sessions db;
           ab_test_summary := table |}))
  end.

(** ** The simulator *)

Section Simulator.

Context {G N F E C : Type}.
Context `{!RandomModule G, !NumpyRandom N, !FakerProvider F,
          !OsEntropy E, !WallClock C}.

(** Everything outside the interpreter's heap that a call can read or
    change. *)
Record World : Type := {
  w_random : G;
  w_numpy : N;
  w_faker : F;
  w_entropy : E;
  w_clock : C;
  w_db : Database }.

(** A statement: it runs in a world and returns a value and the next
    world, or raises. *)
Definition M (A : Type) : Type := World → result (A * World).

Definition ret {A} (a : A) : M A := λ w, Ok (a, w).
Definition raise {A} (e : PyError) : M A := λ _, Raise e.
Definition bind {A B} (m : M A) (k : A → M B) : M B :=
  λ w, match m w with
       | Ok (a, w') => k a w'
       | Raise e => Raise e
       end.
Definition lift {A} (r : result A) : M A :=
  λ w, match r with Ok a => Ok (a, w) | Raise e => Raise e end.

Notation "'let*' x ':=' m 'in' k" := (bind m (λ x, k))
  (at level 10, x name, m at level 100, k at level 200).

(** *** Calls on the collaborators *)

Definition on_random {A} (f : G → A * G) : M A := λ w,
  let '(a, g) := f (w_random w) in
  Ok (a, {| w_random := g; w_numpy := w_numpy w; w_faker := w_faker w;
            w_entropy := w_entropy w; w_clock := w_clock w; w_db := w_db w |}).

Definition on_numpy {A} (f : N → A * N) : M A := λ w,
  let '(a, n) := f (w_numpy w) in
  Ok (a, {| w_random := w_random w; w_numpy := n; w_faker := w_faker w;
            w_entropy := w_entropy w; w_clock := w_clock w; w_db := w_db w |}).

Definition on_faker {A} (f : F → A * F) : M A := λ w,
  let '(a, k) := f (w_faker w) in
  Ok (a, {| w_random := w_random w; w_numpy := w_numpy w; w_faker := k;
            w_entropy := w_entropy w; w_clock := w_clock w; w_db := w_db w |}).

Definition on_entropy {A} (f : E → A * E) : M A := λ w,
  let '(a, e) := f (w_entropy w) in
  Ok (a, {| w_random := w_random w; w_numpy := w_numpy w; w_faker := w_faker w;
            w_entropy := e; w_clock := w_clock w; w_db := w_db w |}).

Definition on_clock {A} (f : C → A * C) : M A := λ w,
  let '(a, c) := f (w_clock w) in
  Ok (a, {| w_random := w_random w; w_numpy := w_numpy w; w_faker := w_faker w;
            w_entropy := w_entropy w; w_clock := c; w_db := w_db w |}).

Definition random_dot_random : M float := on_random random_random.

Definition random_dot_uniform (a b : float) : M float :=
  on_random (random_uniform a b).

(** [random.randint(a, b)]: [ValueError] on an empty range. *)
Definition random_dot_randint (a b : Z) : M Z :=
  if (a <=? b) then on_random (random_randint a b) else raise ValueError.

(** [random.choice(seq)]: [IndexError] on an empty sequence. *)
Definition random_dot_choice (seq : list string) : M string :=
  match seq with
  | [] => raise IndexError
  | _ => on_random (random_choice seq)
  end.

(** [random.choices(population, weights=weights)[0]]: the weights must
    match the population and have a positive total. *)
Definition random_dot_choices (population : list string) (weights : list Z)
  : M string :=
  if negb (length weights =? length population)%nat then raise ValueError
  else match population with
       | [] => raise IndexError
       | _ => if (foldr Z.add 0 weights <=? 0) then raise ValueError
              else on_random (random_choices population weights)
       end.

(** [np.random.normal(loc, scale)] with integer arguments *)
Definition np_random_dot_normal (loc scale : Z) : M float :=
  let* l := lift (PyLib.float loc) in
  let* s := lift (PyLib.float scale) in
  on_numpy (np_random_normal l s).

(** *** The module's seeding, lines 27 to 30: [Faker.seed(42)],
    [np.random.seed(42)], [random.seed(42)].  The entropy pool, the
    clock and the database are what the process finds. *)
Definition module_import (entropy : E) (clock : C) (db : Database) : World :=
  {| w_random := random_seed 42;
     w_numpy := np_random_seed 42;
     w_faker := faker_seed 42;
     w_entropy := entropy;
     w_clock := clock;
     w_db := db |}.

Record ABTestSimulator : Type := {
  num_users : Z;
  test_duration_days : Z;
  start_date : PyLib.datetime;
  end_date : PyLib.datetime;
  app_genres : list string;
  device_types : list string;
  countries : list string }.

(** [ABTestSimulator.__init__]: the arguments are stored as they come. *)
Definition init (num_users test_duration_days : Z) : M ABTestSimulator :=
  let* now1 := on_clock datetime_now in
  let* start := lift (PyLib.sub_days now1 test_duration_days) in
  let* now2 := on_clock datetime_now in
  ret {| num_users := num_users;
         test_duration_days := test_duration_days;
         start_date := start;
         end_date := now2;
         app_genres :=
           [ "Games"; "Entertainment"; "Education"; "Photo & Video";
             "Music"; "Social Networking"; "Shopping"; "Productivity";
             "Finance"; "Sports"; "Food & Drink"; "Travel"; "News";
             "Health & Fitness"; "Utilities"; "Weather"; "Reference" ];
         device_types := [ "iPhone"; "iPad"; "Apple Watch"; "Mac" ];
         countries :=
           [ "US"; "UK"; "CA"; "AU"; "DE"; "FR"; "JP"; "IN"; "BR"; "MX" ] |}.

(** The loop over [tests.items()], lines 133 to 136. *)
Fixpoint assign_variants (tests : list (string * TestInfo))
    (user_tests : gmap string string) : M (gmap string string) :=
  match tests with
  | [] => ret user_tests
  | (test_key, test_info) :: rest =>
      let variants := (variants test_info).*1 in
      let* assigned_variant := random_dot_choice variants in
      assign_variants rest (<[test_key := assigned_variant]> user_tests)
  end.

(** Lines 152 to 162. *)
Definition session_rating (user_tests : gmap string string) (converted : bool)
  : M (option float) :=
  if converted then
    let base_rating := 4.0%float in
    let* icon := lift (Py.subscript user_tests "icon_design_test") in
    let* base_rating :=
      (if String.eqb icon "variant_a" || String.eqb icon "variant_b"
       then let* d := random_dot_uniform (-0.2) 0.4 in ret (base_rating + d)%float
       else ret base_rating) in
    let* pricing := lift (Py.subscript user_tests "pricing_test") in
    let* base_rating :=
      (if String.eqb pricing "control"
       then let* d := random_dot_uniform (-0.3) 0.1 in ret (base_rating + d)%float
       else ret base_rating) in
    let* noise := random_dot_uniform (-1.0) 1.0 in
    let rating := Py.min 5.0 (Py.max 1.0 (base_rating + noise)%float) in
    ret (Some (Py.round1 rating))
  else ret None.

(** Lines 143 to 149. *)
Definition session_time_spent (user_tests : gmap string string) : M Z :=
  let base_time := 45 in
  let* descr := lift (Py.subscript user_tests "description_test") in
  let* base_time :=
    (if String.eqb descr "variant_a"
     then let* d := random_dot_randint 10 30 in ret (base_time + d)
     else ret base_time) in
  let* shots := lift (Py.subscript user_tests "screenshots_test") in
  let* base_time :=
    (if String.eqb shots "variant_a"
     then let* d := random_dot_randint 5 20 in ret (base_time + d)
     else ret base_time) in
  let* x := np_random_dot_normal base_time 15 in
  let* t := lift (Py.int x) in
  ret (Z.max 5 t).

(** One pass through the body of the loop of
    [generate_user_sessions]: the dict that is appended. *)
Definition generate_one_session (self : ABTestSimulator) : M SessionRecord :=
  let* user_id := on_entropy uuid_uuid4 in
  let* session_date :=
    on_faker (fake_date_time_between (start_date self) (end_date self)) in
  let* age_group :=
    random_dot_choices [ "18-24"; "25-34"; "35-44"; "45-54"; "55+" ]
                       [ 20; 35; 25; 15; 5 ] in
  let* device_type :=
    random_dot_choices (device_types self) [ 60; 25; 10; 5 ] in
  let* country :=
    random_dot_choices (countries self) [ 40; 15; 10; 8; 7; 6; 5; 4; 3; 2 ] in
  let* app_genre := random_dot_choice (app_genres self) in
  let* company := on_faker fake_company in
  let* word := on_faker fake_word in
  let app_name := (company ++ " " ++ PyLib.title word)%string in
  let tests := generate_test_variants in
  let* user_tests := assign_variants tests ∅ in
  let* conversion_probability :=
    lift (calculate_conversion_probability user_tests age_group device_type) in
  let* r := random_dot_random in
  let converted := (r <? conversion_probability)%float in
  let* time_spent := session_time_spent user_tests in
  let* rating := session_rating user_tests converted in
  let* icon := lift (Py.subscript user_tests "icon_design_test") in
  let* descr := lift (Py.subscript user_tests "description_test") in
  let* pricing := lift (Py.subscript user_tests "pricing_test") in
  let* shots := lift (Py.subscript user_tests "screenshots_test") in
  let* session_id := on_entropy uuid_uuid4 in
  ret {| user_id := user_id;
         session_date := session_date;
         app_name := app_name;
         app_genre := app_genre;
         age_group := age_group;
         device_type := device_type;
         country := country;
         icon_design_variant := icon;
         description_variant := descr;
         pricing_variant := pricing;
         screenshots_variant := shots;
         time_spent_seconds := time_spent;
         converted := converted;
         rating := rating;
         session_id := session_id |}.

(** [for _ in range(n)]: [sessions.append(...)] once per pass. *)
Fixpoint sessions_loop (self : ABTestSimulator) (passes : nat)
    (sessions : list SessionRecord) : M (list SessionRecord) :=
  match passes with
  | O => ret sessions
  | S passes' =>
      let* s := generate_one_session self in
      sessions_loop self passes' (sessions ++ [s])
  end.

(** [generate_user_sessions]; [range(n)] is empty for [n <= 0], and
    the DataFrame is the list of its rows. *)
Definition generate_user_sessions (self : ABTestSimulator)
  : M (list SessionRecord) :=
  sessions_loop self (Z.to_nat (num_users self)) [].

(** One run of the program up to the DataFrame: the module is imported
    (which seeds the three generators), the simulator is constructed and
    [generate_user_sessions] is called. *)
Definition run_generation (n days : Z) (entropy : E) (clock : C) (db : Database)
  : result (list SessionRecord) :=
  match (let* self := init n days in generate_user_sessions self)
          (module_import entropy clock db) with
  | Ok (sessions, _) => Ok sessions
  | Raise e => Raise e
  end.

(** [generate_summary_statistics]: the statements run in one
    transaction, which is committed at the end. *)
Definition generate_summary_statistics : M unit := λ w,
  match summary_statements summary_tests (w_db w) with
  | Ok db =>
      Ok (tt, {| w_random := w_random w; w_numpy := w_numpy w;
                 w_faker := w_faker w; w_entropy := w_entropy w;
                 w_clock := w_clock w; w_db := db |})
  | Raise e => Raise e
  end.

End Simulator.

Notation "'let*' x ':=' m 'in' k" := (bind m (λ x, k))
  (at level 10, x name, m at level 100, k at level 200).

(** ** Stand-ins for the collaborators

    Counters and small tables in place of the Mersenne Twister, NumPy,
    Faker, the entropy pool and the clock: enough to run the simulator
    on concrete inputs. *)

Module Fixture.

Definition pick {A} (dflt : A) (l : list A) (i : nat) : A :=
  nth (Nat.modulo i (length l)) l dflt.

Definition unit_draws : list float := [ 0.93; 0.5; 0.05; 0.2 ]%float.
Definition normal_draws : list float := [ -1.3; 0.2; 2.4; -4.1 ]%float.
Definition companies : list string :=
  [ "Acme Group"; "Globex LLC"; "Initech and Sons" ].
Definition words : list string := [ "cloud"; "river"; "stone" ].

Definition randint (a b : Z) (g : nat) : Z * nat :=
  (a + Z.of_nat g `mod` (b - a + 1), S g).

Definition normal (loc scale : float) (n : nat) : float * nat :=
  let x := (loc + scale * pick 0%float normal_draws n)%float in
  (if is_finite x then x else loc, S n).

Lemma pick_elem {A} (dflt : A) (l : list A) (i : nat) :
  l ≠ [] → pick dflt l i ∈ l.
Proof.
  intros Hne. apply list_elem_of_In, nth_In, Nat.mod_upper_bound.
  destruct l; [done|simpl; lia].
Qed.

Lemma randint_range a b g : a ≤ b → a ≤ (randint a b g).1 ≤ b.
Proof.
  intros Hab. simpl.
  pose proof (Z.mod_pos_bound (Z.of_nat g) (b - a + 1)). lia.
Qed.

Lemma normal_finite loc scale n :
  is_finite loc = true → is_finite scale = true →
  is_finite (normal loc scale n).1 = true.
Proof.
  intros Hloc _. unfold normal. simpl.
  destruct (is_finite (loc + scale * pick 0%float normal_draws n)) eqn:Hx; done.
Qed.

#[export] Instance random_module : RandomModule nat := {|
  random_seed z := Z.to_nat z;
  random_random g := (pick 0%float unit_draws g, S g);
  random_uniform a b g := ((a + (b - a) * pick 0%float unit_draws g)%float, S g);
  random_randint := randint;
  random_choice seq g := (pick "" seq g, S g);
  random_choices population _ g := (pick "" population g, S g);
  random_randint_range := randint_range;
  random_choice_elem seq g := pick_elem "" seq g;
  random_choices_elem population _ g := pick_elem "" population g |}.

#[export] Instance numpy_random : NumpyRandom nat := {|
  np_random_seed z := Z.to_nat z;
  np_random_normal := normal;
  np_random_normal_finite := normal_finite |}.

#[export] Instance faker_provider : FakerProvider nat := {|
  faker_seed z := Z.to_nat z;
  fake_date_time_between start stop f :=
    (start + Z.of_nat f `mod` Z.max 1 (stop - start), S f);
  fake_company f := (pick "" companies f, S f);
  fake_word f := (pick "" words f, S f) |}.

#[export] Instance os_entropy : OsEntropy nat := {|
  uuid_uuid4 e := (String.append "uuid-" (pretty e), S e) |}.

#[export] Instance wall_clock : WallClock Z := {|
  datetime_now c := (c, c + 1) |}.

Definition empty_db : Database :=
  {| ab_test_sessions := []; ab_test_summary := [] |}.

Definition sample_sessions : list SessionRow :=
  [ {| row_icon_design_variant := "control";
       row_description_variant := "variant_a";
       row_pricing_variant := "control";
       row_screenshots_variant := "control";
       row_time_spent_seconds := 40;
       row_converted := true;
       row_rating := Some (Num (43 # 10)) |};
    {| row_icon_design_variant := "variant_b";
       row_description_variant := "control";
       row_pricing_variant := "control";
       row_screenshots_variant := "control";
       row_time_spent_seconds := 71;
       row_converted := false;
       row_rating := Some NumericNaN |};
    {| row_icon_design_variant := "control";
       row_description_variant := "variant_a";
       row_pricing_variant := "variant_a";
       row_screenshots_variant := "control";
       row_time_spent_seconds := 5;
       row_converted := true;
       row_rating := Some (Num (38 # 10)) |} ].

Definition sample_db : Database :=
  {| ab_test_sessions := sample_sessions; ab_test_summary := [] |}.

(** A process started with the given entropy, at the given time. *)
Definition start (entropy : nat) (clock : Z) : @World nat nat nat nat Z :=
  module_import entropy clock empty_db.

(** [run_generation] with the stand-ins, on empty tables. *)
Definition run (n days : Z) (entropy : nat) (clock : Z)
  : result (list SessionRecord) :=
  run_generation n days entropy clock empty_db.

(** An assignment of the catalog, and a start of the clock. *)
Definition sample_assignment : gmap string string :=
  {[ "icon_design_test" := "variant_b";
     "description_test" := "variant_a";
     "pricing_test" := "control";
     "screenshots_test" := "variant_a" ]}.

Definition sample_clock : Z := 63900000000000000.

(** The simulator for three users over thirty days, built in a fresh
    process at [sample_clock]. *)
Definition sample_init : result (ABTestSimulator * World) :=
  init 3 30 (start 0%nat sample_clock).

End Fixture.

(** ** The conversion model as the specification words it

    "Start from a fixed base rate (0.15).  For each test, apply an
    additive delta keyed by the assigned variant (a variant with no listed
    delta contributes zero).  After all additive contributions, apply two
    multiplicative factors in sequence: an age-bracket multiplier and a
    device-category multiplier.  Finally clamp the result to the closed
    interval [0.01, 0.95]." *)

Module Spec.

Definition base_rate : float := 0.15.

Definition variant_deltas : list (string * list (string * float)) :=
  [ ("icon_design_test", [ ("variant_a", 0.02%float); ("variant_b", 0.035%float) ]);
    ("description_test", [ ("variant_a", 0.025%float) ]);
    ("pricing_test", [ ("control", 0.08%float); ("variant_a", 0.04%float) ]);
    ("screenshots_test", [ ("variant_a", 0.015%float) ]) ].

Definition age_table : list (string * float) :=
  [ ("18-24", 1.2%float); ("25-34", 1.1%float); ("35-44", 1.0%float);
    ("45-54", 0.9%float); ("55+", 0.8%float) ].

Definition device_table : list (string * float) :=
  [ ("iPhone", 1.0%float); ("iPad", 0.9%float);
    ("Apple Watch", 0.7%float); ("Mac", 0.6%float) ].

Definition clamp (lo hi x : float) : float :=
  if (x <? lo)%float then lo else if (hi <? x)%float then hi else x.

Definition additive (assignment : string → string) : float :=
  fold_left
    (λ acc '(test, deltas), (acc + assoc deltas (assignment test) 0)%float)
    variant_deltas base_rate.

Definition probability (assignment : string → string)
    (age_group device_type : string) : float :=
  let p := additive assignment in
  let p := (p * assoc age_table age_group 1.0)%float in
  let p := (p * assoc device_table device_type 1.0)%float in
  clamp 0.01 0.95 p.

End Spec.

(** ** What the properties speak of *)

(** A variant assignment drawn from the catalog: every test of the
    catalog is assigned one of its own variant keys. *)
Definition assigned_from (user_tests : gmap string string)
    (entry : string * TestInfo) : Prop :=
  match user_tests !! entry.1 with
  | Some v => v ∈ (variants entry.2).*1
  | None => False
  end.

Definition drawn_from_catalog (user_tests : gmap string string) : Prop :=
  Forall (assigned_from user_tests) generate_test_variants.

#[global] Instance assigned_from_dec user_tests entry :
  Decision (assigned_from user_tests entry).
Proof. unfold assigned_from. destruct (user_tests !! entry.1); apply _. Defined.

#[global] Instance drawn_from_catalog_dec user_tests :
  Decision (drawn_from_catalog user_tests).
Proof. unfold drawn_from_catalog. apply _. Defined.

(** An assignment that has an entry for every test of the catalog. *)
Definition complete_assignment (user_tests : gmap string string) : Prop :=
  Forall (λ entry : string * TestInfo, is_Some (user_tests !! entry.1))
         generate_test_variants.

Definition in_closed_range (lo hi x : float) : bool :=
  (lo <=? x)%float && (x <=? hi)%float.

Definition in_open_range (lo hi x : float) : bool :=
  (lo <? x)%float && (x <? hi)%float.

(** The age groups and device types that the generator draws from. *)
Definition known_age_groups : list string :=
  [ "18-24"; "25-34"; "35-44"; "45-54"; "55+" ].
Definition known_device_types : list string :=
  [ "iPhone"; "iPad"; "Apple Watch"; "Mac" ].

(** [base_prob] after the four variant effects, by the outcome of each
    string comparison of the code. *)
Definition additive_of (icon_a icon_b descr_a price_c price_a shots_a : bool)
  : float :=
  let p := 0.15%float in
  let p := if icon_a then (p + 0.02)%float
           else if icon_b then (p + 0.035)%float else p in
  let p := if descr_a then (p + 0.025)%float else p in
  let p := if price_c then (p + 0.08)%float
           else if price_a then (p + 0.04)%float else p in
  if shots_a then (p + 0.015)%float else p.

Definition age_factors : list float := [ 1.2; 1.1; 1.0; 0.9; 0.8 ]%float.
Definition device_factors : list float := [ 1.0; 0.9; 0.7; 0.6 ]%float.

Definition all_additives : list float :=
  b1 ← [true; false]; b2 ← [true; false]; b3 ← [true; false];
  b4 ← [true; false]; b5 ← [true; false]; b6 ← [true; false];
  [additive_of b1 b2 b3 b4 b5 b6].

(** Every product that can reach the [return] statement. *)
Definition all_base_probs : list float :=
  s ← all_additives; a ← age_factors; d ← device_factors; [(s * a * d)%float].

Definition all_bool (f : bool → bool) : bool := f true && f false.

(** The specification's value when the comparisons of the assigned
    variants come out as the six booleans and the two factors are [a]
    and [d]. *)
Definition spec_value_of (icon_a icon_b descr_a price_c price_a shots_a : bool)
    (a d : float) : float :=
  let p := Spec.base_rate in
  let p := (p + if icon_a then 0.02 else if icon_b then 0.035 else 0)%float in
  let p := (p + if descr_a then 0.025 else 0)%float in
  let p := (p + if price_c then 0.08 else if price_a then 0.04 else 0)%float in
  let p := (p + if shots_a then 0.015 else 0)%float in
  Spec.clamp 0.01 0.95 (p * a * d)%float.

Definition code_value_of (icon_a icon_b descr_a price_c price_a shots_a : bool)
    (a d : float) : float :=
  Py.min 0.95
    (Py.max 0.01
       (additive_of icon_a icon_b descr_a price_c price_a shots_a * a * d)%float).


Definition rmap {A B} (f : A → B) (r : result A) : result B :=
  match r with
  | Ok a => Ok (f a)
  | Raise e => Raise e
  end.

(** The lists that [generate_user_sessions] passes with fixed weights. *)
Definition well_formed (self : ABTestSimulator) : Prop :=
  length (device_types self) = 4%nat
  ∧ length (countries self) = 10%nat
  ∧ app_genres self ≠ [].

(** What the body of the loop guarantees of the record it appends. *)
Definition session_ok (s : SessionRecord) : Prop :=
  5 ≤ time_spent_seconds s
  ∧ (is_Some (rating s) ↔ converted s = true)
  ∧ (∀ x, rating s = Some x → (1 <=? x)%float = true ∧ (x <=? 5)%float = true).

(** The rating of a session that has one: a number.  NULL and NaN both
    stand for a session without rating. *)
Definition rating_number (r : SessionRow) : option Q :=
  match row_rating r with
  | Some (Num q) => Some q
  | _ => None
  end.

(** The ratings of a group that are present. *)
Definition present_ratings (group : list SessionRow) : list Q :=
  omap rating_number group.

(** The sessions of a group whose rating is NaN. *)
Definition rating_is_nan (r : SessionRow) : bool :=
  match row_rating r with
  | Some NumericNaN => true
  | _ => false
  end.

Definition nan_ratings (group : list SessionRow) : list SessionRow :=
  filter (λ r, rating_is_nan r = true) group.

(** The mean as the specification words it: over the present ratings
    only, absent when there are none. *)
Definition mean_rating (group : list SessionRow) : option Q :=
  match present_ratings group with
  | [] => None
  | ratings =>
      Some (Qdiv (fold_left Qplus ratings 0%Q)
                 (inject_Z (Z.of_nat (length ratings))))
  end.

Definition converted_count (rows : list SessionRow) : Z :=
  Z.of_nat (length (filter (λ r, row_converted r = true) rows)).

Definition sum_of (f : SummaryRow → Z) (rows : list SummaryRow) : Z :=
  foldr Z.add 0 (f <$> rows).

(** The sessions of one variant, in table order. *)
Definition sessions_of (variant_column : SessionRow → string) (k : string)
    (sessions : list SessionRow) : list SessionRow :=
  filter (λ r, variant_column r = k) sessions.

(** A summary row that reports one group; its mean rating is the
    specification's when no rating of the group is NaN. *)
Definition describes (test_name : string) (g : string * list SessionRow)
    (row : SummaryRow) : Prop :=
  sum_test_name row = test_name
  ∧ variant_key row = g.1
  ∧ total_users row = Z.of_nat (length g.2)
  ∧ conversions row = converted_count g.2
  ∧ (Forall (λ r, row_rating r ≠ Some NumericNaN) g.2 →
     avg_rating row = Num <$> mean_rating g.2).

(** ** The model on known values *)

Section KnownValues.

Import Fixture.

Example round1_half_to_even : Py.round1 0.25 = 0.2%float.
Proof. vm_compute. reflexivity. Qed.

Example round1_below_half : Py.round1 0.35 = 0.3%float.
Proof. vm_compute. reflexivity. Qed.

Example round1_negative : Py.round1 (-2.675) = (-2.7)%float.
Proof. vm_compute. reflexivity. Qed.

Example int_truncates_toward_zero :
  Py.int (-3.7) = Ok (-3) ∧ Py.int 94.999 = Ok 94.
Proof. split; vm_compute; reflexivity. Qed.

Example int_of_nan_raises : Py.int nan = Raise ValueError.
Proof. vm_compute. reflexivity. Qed.

Example max_keeps_first_on_nan : Py.max 1 nan = 1%float.
Proof. vm_compute. reflexivity. Qed.

Example title_of_words :
  PyLib.title "they're bill's friends" = "They'Re Bill'S Friends".
Proof. vm_compute. reflexivity. Qed.

Example probability_of_sample :
  calculate_conversion_probability sample_assignment "18-24" "iPhone"
  = Ok 0.366%float.
Proof. vm_compute. reflexivity. Qed.

Example probability_without_key :
  calculate_conversion_probability ∅ "18-24" "iPhone"
  = Raise (KeyError "icon_design_test").
Proof. vm_compute. reflexivity. Qed.

Example unassigned_variant_has_no_row :
  rmap (fmap variant_key)
       (summary_select "Screenshot Count Test" row_screenshots_variant
                       sample_sessions)
  = Ok ["control"].
Proof. vm_compute. reflexivity. Qed.

Example summary_on_filled_table_fails :
  rmap (λ _, tt)
       (summary_statements summary_tests
          {| ab_test_sessions := sample_sessions;
             ab_test_summary :=
               [ {| sum_test_name := "Pricing Strategy Test";
                    variant_key := "control";
                    total_users := 1;
                    conversions := 0;
                    conversion_rate := 0;
                    avg_time_spent := 71;
                    avg_rating := Some NumericNaN |} ] |})
  = Raise DatabaseError.
Proof. vm_compute. reflexivity. Qed.

End KnownValues.

(** ** Properties of the conversion model *)

Section ConversionModel.

Implicit Types (user_tests : gmap string string) (age dev : string).

Lemma get_list_to_map (table : list (string * float)) k dflt :
  Py.get (list_to_map table) k dflt = assoc table k dflt.
Proof.
  unfold Py.get. induction table as [|[k' v] table IH]; simpl.
  - by rewrite lookup_empty.
  - rewrite lookup_insert. destruct (String.eqb_spec k k') as [->|Hne].
    + by rewrite decide_True.
    + rewrite decide_False by congruence. exact IH.
Qed.

Lemma elem_of_bools (b : bool) : b ∈ [true; false].
Proof. destruct b; set_solver. Qed.

Lemma assoc_cases {V} (table : list (string * V)) k dflt :
  assoc table k dflt = dflt ∨ assoc table k dflt ∈ table.*2.
Proof.
  induction table as [|[k' v] table IH]; simpl; [by left|].
  destruct (String.eqb k k'); [right; left|].
  destruct IH as [IH|IH]; [by left|right; by right].
Qed.

Lemma age_factor_cases age :
  Py.get age_multipliers age 1.0%float ∈ age_factors.
Proof.
  change age_multipliers with (list_to_map Spec.age_table : gmap string float).
  rewrite get_list_to_map.
  destruct (assoc_cases Spec.age_table age 1.0%float) as [->|H].
  - unfold age_factors. set_solver.
  - exact H.
Qed.

Lemma device_factor_cases dev :
  Py.get device_multipliers dev 1.0%float ∈ device_factors.
Proof.
  change device_multipliers
    with (list_to_map Spec.device_table : gmap string float).
  rewrite get_list_to_map.
  destruct (assoc_cases Spec.device_table dev 1.0%float) as [->|H].
  - unfold device_factors. set_solver.
  - exact H.
Qed.

(** The function on an assignment that has the four keys. *)
Lemma conversion_base_prob_eq user_tests age dev icon descr pricing shots :
  user_tests !! "icon_design_test" = Some icon →
  user_tests !! "description_test" = Some descr →
  user_tests !! "pricing_test" = Some pricing →
  user_tests !! "screenshots_test" = Some shots →
  conversion_base_prob user_tests age dev =
    Ok (additive_of (String.eqb icon "variant_a") (String.eqb icon "variant_b")
                    (String.eqb descr "variant_a")
                    (String.eqb pricing "control") (String.eqb pricing "variant_a")
                    (String.eqb shots "variant_a")
        * Py.get age_multipliers age 1.0%float
        * Py.get device_multipliers dev 1.0%float)%float.
Proof.
  intros Hi Hd Hp Hs. unfold conversion_base_prob, Py.subscript.
  rewrite Hi, Hd, Hp, Hs. reflexivity.
Qed.

Lemma base_prob_reachable user_tests age dev icon descr pricing shots :
  user_tests !! "icon_design_test" = Some icon →
  user_tests !! "description_test" = Some descr →
  user_tests !! "pricing_test" = Some pricing →
  user_tests !! "screenshots_test" = Some shots →
  ∃ p, conversion_base_prob user_tests age dev = Ok p ∧ p ∈ all_base_probs.
Proof.
  intros Hi Hd Hp Hs.
  rewrite (conversion_base_prob_eq _ _ _ _ _ _ _ Hi Hd Hp Hs).
  eexists; split; [reflexivity|].
  unfold all_base_probs, all_additives.
  apply list_elem_of_bind. eexists. split.
  2:{ repeat (apply list_elem_of_bind; eexists; split; [|apply elem_of_bools]).
      apply list_elem_of_singleton. reflexivity. }
  apply list_elem_of_bind. eexists. split; [|apply age_factor_cases].
  apply list_elem_of_bind. eexists. split; [|apply device_factor_cases].
  apply list_elem_of_singleton. reflexivity.
Qed.

Lemma complete_lookups user_tests :
  complete_assignment user_tests →
  ∃ icon descr pricing shots,
    user_tests !! "icon_design_test" = Some icon ∧
    user_tests !! "description_test" = Some descr ∧
    user_tests !! "pricing_test" = Some pricing ∧
    user_tests !! "screenshots_test" = Some shots.
Proof.
  unfold complete_assignment, generate_test_variants.
  rewrite !Forall_cons. simpl.
  intros ([icon Hi] & [descr Hd] & [pricing Hp] & [shots Hs] & _).
  by exists icon, descr, pricing, shots.
Qed.

Lemma drawn_complete user_tests :
  drawn_from_catalog user_tests → complete_assignment user_tests.
Proof.
  unfold drawn_from_catalog, complete_assignment.
  intros H. eapply Forall_impl; [exact H|].
  intros entry. unfold assigned_from.
  destruct (user_tests !! entry.1); [eauto|done].
Qed.

Lemma clamped_probs_in_range :
  forallb (λ p, in_closed_range 0.01 0.95 (Py.min 0.95 (Py.max 0.01 p)))
          all_base_probs = true.
Proof. vm_compute. reflexivity. Qed.

Lemma base_probs_inside :
  forallb (λ p, in_closed_range 0.072 0.366 p
                && in_open_range 0.01 0.95 p
                && Leibniz.eqb (Py.min 0.95 (Py.max 0.01 p)) p)
          all_base_probs = true.
Proof. vm_compute. reflexivity. Qed.

Lemma forallb_elem_of {A} (f : A → bool) (l : list A) x :
  forallb f l = true → x ∈ l → f x = true.
Proof.
  intros Hall Hx. apply list_elem_of_In in Hx.
  exact (proj1 (forallb_forall f l) Hall x Hx).
Qed.

Lemma conversion_probability_returns user_tests age dev :
  complete_assignment user_tests →
  ∃ p, calculate_conversion_probability user_tests age dev = Ok p.
Proof.
  intros Hc.
  destruct (complete_lookups _ Hc)
    as (icon & descr & pricing & shots & Hi & Hd & Hp & Hs).
  unfold calculate_conversion_probability.
  rewrite (conversion_base_prob_eq _ _ _ _ _ _ _ Hi Hd Hp Hs). simpl. eauto.
Qed.

(** C3: for every variant assignment drawn from the catalog and every
    age-group and device-type string, known or not, the function
    returns a probability in the closed interval [0.01, 0.95]. *)
Theorem conversion_probability_in_range user_tests age dev :
  drawn_from_catalog user_tests →
  ∃ p, calculate_conversion_probability user_tests age dev = Ok p
       ∧ (0.01 <=? p)%float = true ∧ (p <=? 0.95)%float = true.
Proof.
  intros Hdrawn.
  destruct (complete_lookups _ (drawn_complete _ Hdrawn))
    as (icon & descr & pricing & shots & Hi & Hd & Hp & Hs).
  destruct (base_prob_reachable user_tests age dev _ _ _ _ Hi Hd Hp Hs)
    as (p & Hbase & Hin).
  unfold calculate_conversion_probability. rewrite Hbase. simpl.
  eexists; split; [reflexivity|].
  pose proof (forallb_elem_of _ _ _ clamped_probs_in_range Hin) as Hr.
  unfold in_closed_range in Hr. by apply andb_prop in Hr.
Qed.

(** C10: on the inputs that the generator can produce (an assignment
    drawn from the shipped catalog, one of the five age groups, one of
    the four device types) the value before the clamp lies in
    [0.072, 0.366]; the clamp returns it unchanged, and it is strictly
    between 0.01 and 0.95. *)
Theorem clamp_is_identity_on_reachable user_tests age dev :
  drawn_from_catalog user_tests →
  age ∈ known_age_groups →
  dev ∈ known_device_types →
  ∃ p, conversion_base_prob user_tests age dev = Ok p
       ∧ (0.072 <=? p)%float = true ∧ (p <=? 0.366)%float = true
       ∧ calculate_conversion_probability user_tests age dev = Ok p
       ∧ (0.01 <? p)%float = true ∧ (p <? 0.95)%float = true.
Proof.
  intros Hdrawn _ _.
  destruct (complete_lookups _ (drawn_complete _ Hdrawn))
    as (icon & descr & pricing & shots & Hi & Hd & Hp & Hs).
  destruct (base_prob_reachable user_tests age dev _ _ _ _ Hi Hd Hp Hs)
    as (p & Hbase & Hin).
  pose proof (forallb_elem_of _ _ _ base_probs_inside Hin) as Hr.
  apply andb_prop in Hr as [Hr Hid]. apply andb_prop in Hr as [Hin1 Hin2].
  apply andb_prop in Hin1 as [? ?]. apply andb_prop in Hin2 as [? ?].
  apply Leibniz.eqb_spec in Hid.
  exists p. unfold calculate_conversion_probability.
  rewrite Hbase. simpl. rewrite Hid. done.
Qed.

Lemma all_bool_elim (f : bool → bool) :
  all_bool f = true → ∀ b, f b = true.
Proof.
  unfold all_bool. intros H b. apply andb_prop in H. destruct b; tauto.
Qed.

Lemma code_and_spec_values_agree :
  all_bool (λ b1, all_bool (λ b2, all_bool (λ b3,
  all_bool (λ b4, all_bool (λ b5, all_bool (λ b6,
    forallb (λ a, forallb (λ d,
      Leibniz.eqb (code_value_of b1 b2 b3 b4 b5 b6 a d)
                  (spec_value_of b1 b2 b3 b4 b5 b6 a d))
      device_factors) age_factors)))))) = true.
Proof. vm_compute. reflexivity. Qed.

Lemma unknown_age_is_neutral age :
  age ∉ known_age_groups → Py.get age_multipliers age 1.0%float = 1.0%float.
Proof.
  intros Hnot.
  change age_multipliers with (list_to_map Spec.age_table : gmap string float).
  rewrite get_list_to_map. unfold Spec.age_table. simpl.
  repeat match goal with
         | |- context [String.eqb age ?k] =>
             destruct (String.eqb_spec age k) as [->|?];
             [exfalso; apply Hnot; unfold known_age_groups; set_solver|]
         end.
  reflexivity.
Qed.

Lemma unknown_device_is_neutral dev :
  dev ∉ known_device_types →
  Py.get device_multipliers dev 1.0%float = 1.0%float.
Proof.
  intros Hnot.
  change device_multipliers
    with (list_to_map Spec.device_table : gmap string float).
  rewrite get_list_to_map. unfold Spec.device_table. simpl.
  repeat match goal with
         | |- context [String.eqb dev ?k] =>
             destruct (String.eqb_spec dev k) as [->|?];
             [exfalso; apply Hnot; unfold known_device_types; set_solver|]
         end.
  reflexivity.
Qed.

(** C5: on every assignment with an entry per test the function
    returns, without raising, the value of the specification's
    computation: the base rate plus the per-test deltas in catalog
    order, times the age multiplier, times the device multiplier,
    clamped once to [0.01, 0.95]; an age group or a device type outside
    the tables multiplies by 1.0. *)
Theorem conversion_probability_order user_tests age dev :
  complete_assignment user_tests →
  calculate_conversion_probability user_tests age dev
    = Ok (Spec.probability (λ test, Py.get user_tests test "") age dev)
  ∧ (age ∉ known_age_groups →
     Py.get age_multipliers age 1.0%float = 1.0%float)
  ∧ (dev ∉ known_device_types →
     Py.get device_multipliers dev 1.0%float = 1.0%float).
Proof.
  intros Hcomplete.
  split; [|split; [apply unknown_age_is_neutral|apply unknown_device_is_neutral]].
  destruct (complete_lookups _ Hcomplete)
    as (icon & descr & pricing & shots & Hi & Hd & Hp & Hs).
  unfold calculate_conversion_probability.
  rewrite (conversion_base_prob_eq _ _ _ _ _ _ _ Hi Hd Hp Hs). simpl.
  f_equal.
  pose proof (age_factor_cases age) as Ha.
  pose proof (device_factor_cases dev) as Hdv.
  change age_multipliers
    with (list_to_map Spec.age_table : gmap string float) in *.
  change device_multipliers
    with (list_to_map Spec.device_table : gmap string float) in *.
  rewrite !get_list_to_map in *. unfold Spec.probability.
  generalize dependent (assoc Spec.age_table age 1.0%float).
  generalize dependent (assoc Spec.device_table dev 1.0%float).
  intros d Hdv a Ha.
  unfold Spec.additive, Spec.variant_deltas. simpl.
  unfold Py.get. rewrite Hi, Hd, Hp, Hs. simpl.
  change (code_value_of (String.eqb icon "variant_a") (String.eqb icon "variant_b")
            (String.eqb descr "variant_a")
            (String.eqb pricing "control") (String.eqb pricing "variant_a")
            (String.eqb shots "variant_a") a d
          = spec_value_of (String.eqb icon "variant_a") (String.eqb icon "variant_b")
            (String.eqb descr "variant_a")
            (String.eqb pricing "control") (String.eqb pricing "variant_a")
            (String.eqb shots "variant_a") a d).
  generalize (String.eqb icon "variant_a"), (String.eqb icon "variant_b"),
    (String.eqb descr "variant_a"), (String.eqb pricing "control"),
    (String.eqb pricing "variant_a"), (String.eqb shots "variant_a").
  intros b1 b2 b3 b4 b5 b6.
  pose proof (all_bool_elim _ code_and_spec_values_agree b1) as Hall.
  cbv beta in Hall.
  pose proof (all_bool_elim _ Hall b2) as Hall2. cbv beta in Hall2.
  pose proof (all_bool_elim _ Hall2 b3) as Hall3. cbv beta in Hall3.
  pose proof (all_bool_elim _ Hall3 b4) as Hall4. cbv beta in Hall4.
  pose proof (all_bool_elim _ Hall4 b5) as Hall5. cbv beta in Hall5.
  pose proof (all_bool_elim _ Hall5 b6) as Hall6. cbv beta in Hall6.
  apply (forallb_elem_of _ _ _ Hall6) in Ha.
  apply (forallb_elem_of _ _ _ Ha) in Hdv.
  apply Leibniz.eqb_spec in Hdv. exact Hdv.
Qed.

End ConversionModel.

(** ** Facts about binary64 values *)

Section Floats.

Lemma digits2_pos_bounds (m : positive) :
  2 ^ (Z.pos (digits2_pos m) - 1) ≤ Z.pos m < 2 ^ Z.pos (digits2_pos m).
Proof.
  induction m as [m IH|m IH|]; simpl digits2_pos.
  - rewrite Pos2Z.inj_succ.
    replace (Z.succ (Z.pos (digits2_pos m)) - 1)
      with (Z.succ (Z.pos (digits2_pos m) - 1)) by lia.
    rewrite !Z.pow_succ_r by lia. lia.
  - rewrite Pos2Z.inj_succ.
    replace (Z.succ (Z.pos (digits2_pos m)) - 1)
      with (Z.succ (Z.pos (digits2_pos m) - 1)) by lia.
    rewrite !Z.pow_succ_r by lia. lia.
  - simpl. lia.
Qed.

Lemma div_half_even_bounds n d lo hi :
  0 < d → lo * d ≤ n → n < hi * d → lo ≤ Py.div_half_even n d ≤ hi.
Proof.
  intros Hd Hlo Hhi. unfold Py.div_half_even.
  assert (lo ≤ n / d) by (apply Z.div_le_lower_bound; lia).
  assert (n / d < hi) by (apply Z.div_lt_upper_bound; lia).
  destruct (2 * (n `mod` d) ?= d); [destruct (Z.even (n / d))|..]; lia.
Qed.

Lemma Prim2SF_one : Prim2SF 1 = S754_finite false 4503599627370496 (-52).
Proof. vm_compute. reflexivity. Qed.

Lemma Prim2SF_five : Prim2SF 5 = S754_finite false 5629499534213120 (-50).
Proof. vm_compute. reflexivity. Qed.

Lemma pow2_50 : 2 ^ 50 = 1125899906842624.
Proof. vm_compute. reflexivity. Qed.

Lemma pow2_51 : 2 ^ 51 = 2251799813685248.
Proof. vm_compute. reflexivity. Qed.

Lemma pow2_52 : 2 ^ 52 = 4503599627370496.
Proof. vm_compute. reflexivity. Qed.

Lemma pow2_53 : 2 ^ 53 = 9007199254740992.
Proof. vm_compute. reflexivity. Qed.

Lemma compare_cont_lt (a b : positive) :
  match Pos.compare_cont Eq a b with Lt => true | _ => false end = true →
  Z.pos a < Z.pos b.
Proof.
  intros H. change (Pos.compare_cont Eq a b) with (Pos.compare a b) in H.
  destruct (Pos.compare_spec a b); try discriminate. lia.
Qed.

(** A double strictly between 1.0 and 5.0 is [m * 2^e] with a negative
    exponent and [2^-e < m < 5 * 2^-e]. *)
Lemma strictly_inside_cases (c : float) :
  (1 <? c)%float = true → (c <? 5)%float = true →
  ∃ m e, Prim2SF c = S754_finite false m e ∧ e < 0 ∧
         2 ^ (- e) < Z.pos m < 5 * 2 ^ (- e).
Proof.
  intros H1 H5. rewrite ltb_spec in H1, H5.
  pose proof (Prim2SF_valid c) as Hv.
  rewrite Prim2SF_one in H1. rewrite Prim2SF_five in H5.
  destruct (Prim2SF c) as [s|s| |s m e]; try discriminate.
  - destruct s; discriminate.
  - destruct s; try discriminate.
    exists m, e. split; [reflexivity|].
    unfold SFltb, SFcompare in H1, H5.
    unfold SpecFloat.valid_binary, bounded, canonical_mantissa, fexp, emin in Hv.
    apply andb_prop in Hv as [Hc _]. apply Z.eqb_eq in Hc.
    pose proof (digits2_pos_bounds m) as Hm.
    unfold prec, emax in Hc.
    destruct (Z.compare_spec (-52) e) as [He1|He1|He1]; try discriminate;
      destruct (Z.compare_spec e (-50)) as [He5|He5|He5]; try discriminate.
    + lia.
    + subst e.
      assert (Hd : Z.pos (digits2_pos m) = 53) by lia.
      rewrite Hd in Hm. replace (53 - 1) with 52 in Hm by reflexivity.
      rewrite pow2_52, pow2_53 in Hm.
      replace (- -52) with 52 by reflexivity. rewrite pow2_52.
      cbv iota in H1. apply compare_cont_lt in H1. clear - H1 Hm. lia.
    + subst e.
      assert (Hd : Z.pos (digits2_pos m) = 53) by lia.
      rewrite Hd in Hm. replace (53 - 1) with 52 in Hm by reflexivity.
      rewrite pow2_52, pow2_53 in Hm.
      replace (- -50) with 50 by reflexivity. rewrite pow2_50.
      cbv iota in H5. apply compare_cont_lt in H5. clear - H5 Hm. lia.
    + assert (e = -51) by lia. subst e.
      assert (Hd : Z.pos (digits2_pos m) = 53) by lia.
      rewrite Hd in Hm. replace (53 - 1) with 52 in Hm by reflexivity.
      rewrite pow2_52, pow2_53 in Hm.
      replace (- -51) with 51 by reflexivity. rewrite pow2_51.
      clear - Hm. lia.
Qed.

(** What [min(5.0, max(1.0, x))] can be, for any [x] (NaN included). *)
Lemma rating_clamp_cases (x : float) :
  let c := Py.min 5 (Py.max 1 x) in
  c = 1%float ∨ c = 5%float ∨ ((1 <? c)%float = true ∧ (c <? 5)%float = true).
Proof.
  unfold Py.min, Py.max. destruct (1 <? x)%float eqn:H1.
  - destruct (x <? 5)%float eqn:H5; auto.
  - change (1 <? 5)%float with true. cbv iota. auto.
Qed.

Lemma rounded_tenths_in_range :
  forallb (λ n, in_closed_range 1 5
                  (SF2Prim (SFdiv prec emax (S754_finite false (Pos.of_nat n) 0)
                                            (S754_finite false 10 0))))
          (seq 10 41) = true.
Proof. vm_compute. reflexivity. Qed.

Lemma rating_in_range (x : float) :
  in_closed_range 1 5 (Py.round1 (Py.min 5 (Py.max 1 x))) = true.
Proof.
  destruct (rating_clamp_cases x) as [ -> | [ -> | [H1 H5] ] ];
    [vm_compute; reflexivity..|].
  destruct (strictly_inside_cases _ H1 H5) as (m & e & Hsf & He & Hm).
  unfold Py.round1. rewrite Hsf.
  destruct (Z.leb_spec 0 e) as [?|_]; [lia|].
  assert (0 < 2 ^ (- e)) by (apply Z.pow_pos_nonneg; lia).
  pose proof (div_half_even_bounds (10 * Z.pos m) (2 ^ (- e)) 10 50) as Hq.
  destruct (Py.div_half_even (10 * Z.pos m) (2 ^ (- e))) as [|t|t]; try lia.
  pose proof (proj1 (forallb_forall _ _) rounded_tenths_in_range (Pos.to_nat t))
    as Hr.
  cbv beta in Hr. rewrite Pos2Nat.id in Hr. apply Hr. apply in_seq. lia.
Qed.

Lemma int_of_finite (x : float) :
  is_finite x = true → ∃ z, Py.int x = Ok z.
Proof.
  unfold is_finite, Py.int. destruct (Prim2SF x); intros; try discriminate; eauto.
Qed.

Lemma base_times_convert :
  forallb (λ k, match PyLib.float (45 + Z.of_nat k) with
                | Ok x => is_finite x
                | Raise _ => false
                end) (seq 0 51) = true.
Proof. vm_compute. reflexivity. Qed.

(** Every [base_time] between 45 and 95 converts to a finite double. *)
Lemma float_of_base_time (z : Z) :
  45 ≤ z ≤ 95 → ∃ x, PyLib.float z = Ok x ∧ is_finite x = true.
Proof.
  intros Hz.
  pose proof (proj1 (forallb_forall _ _) base_times_convert (Z.to_nat (z - 45)))
    as Hk.
  cbv beta in Hk. replace (45 + Z.of_nat (Z.to_nat (z - 45))) with z in Hk by lia.
  destruct (PyLib.float z) as [x|]; [|discriminate Hk; apply in_seq; lia].
  exists x. split; [reflexivity|]. apply Hk, in_seq. lia.
Qed.

End Floats.

(** ** Properties of the session generator *)

Section Generation.

Context {G N F E C : Type}.
Context `{!RandomModule G, !NumpyRandom N, !FakerProvider F,
          !OsEntropy E, !WallClock C}.

Local Abbreviation world := (@World G N F E C).
Local Abbreviation stmt := (@M G N F E C).

(** *** Judgements on statements *)

(** [returns m P]: from every world, [m] returns without raising, with a
    value that satisfies [P], and leaves the database as it was. *)
Definition returns {A} (m : stmt A) (P : A → Prop) : Prop :=
  ∀ w : world, ∃ a w', m w = Ok (a, w') ∧ w_db w' = w_db w ∧ P a.



(** *** Total correctness *)

Lemma returns_ret {A} (a : A) (P : A → Prop) : P a → returns (ret a) P.
Proof. intros HP w. by exists a, w. Qed.

Lemma returns_bind {A B} (m : stmt A) (k : A → stmt B) P Q :
  returns m P → (∀ a, P a → returns (k a) Q) → returns (bind m k) Q.
Proof.
  intros Hm Hk w. destruct (Hm w) as (a & w1 & Hw & Hdb & HP).
  destruct (Hk a HP w1) as (b & w2 & Hw2 & Hdb2 & HQ).
  exists b, w2. unfold bind. rewrite Hw.
  split; [done|]. split; [congruence|done].
Qed.

Lemma returns_weaken {A} (m : stmt A) (P Q : A → Prop) :
  returns m P → (∀ a, P a → Q a) → returns m Q.
Proof.
  intros Hm HPQ w. destruct (Hm w) as (a & w' & ? & ? & ?).
  exists a, w'. auto.
Qed.

Lemma returns_lift {A} (r : result A) (a : A) (P : A → Prop) :
  r = Ok a → P a → returns (lift r) P.
Proof. intros -> HP w. by exists a, w. Qed.

Lemma returns_on_random {A} (f : G → A * G) (P : A → Prop) :
  (∀ g, P (f g).1) → returns (on_random f) P.
Proof.
  intros HP w. unfold on_random. specialize (HP (w_random w)).
  destruct (f (w_random w)) as [a g]. eexists _, _. by split.
Qed.

Lemma returns_on_numpy {A} (f : N → A * N) (P : A → Prop) :
  (∀ n, P (f n).1) → returns (on_numpy f) P.
Proof.
  intros HP w. unfold on_numpy. specialize (HP (w_numpy w)).
  destruct (f (w_numpy w)) as [a n]. eexists _, _. by split.
Qed.

Lemma returns_on_faker {A} (f : F → A * F) (P : A → Prop) :
  (∀ k, P (f k).1) → returns (on_faker f) P.
Proof.
  intros HP w. unfold on_faker. specialize (HP (w_faker w)).
  destruct (f (w_faker w)) as [a k]. eexists _, _. by split.
Qed.

Lemma returns_on_entropy {A} (f : E → A * E) (P : A → Prop) :
  (∀ e, P (f e).1) → returns (on_entropy f) P.
Proof.
  intros HP w. unfold on_entropy. specialize (HP (w_entropy w)).
  destruct (f (w_entropy w)) as [a e]. eexists _, _. by split.
Qed.

Lemma returns_randint (a b : Z) (P : Z → Prop) :
  a ≤ b → (∀ z, a ≤ z ≤ b → P z) → returns (random_dot_randint a b) P.
Proof.
  intros Hab HP. unfold random_dot_randint.
  destruct (Z.leb_spec a b); [|lia].
  apply returns_on_random. intros g. by apply HP, random_randint_range.
Qed.

Lemma returns_choice (seq : list string) (P : string → Prop) :
  seq ≠ [] → (∀ x, x ∈ seq → P x) → returns (random_dot_choice seq) P.
Proof.
  intros Hne HP. unfold random_dot_choice. destruct seq as [|x seq]; [done|].
  apply returns_on_random. intros g. by apply HP, random_choice_elem.
Qed.

Lemma returns_choices (population : list string) (weights : list Z)
    (P : string → Prop) :
  length weights = length population → population ≠ [] →
  0 < foldr Z.add 0 weights →
  (∀ x, x ∈ population → P x) →
  returns (random_dot_choices population weights) P.
Proof.
  intros Hlen Hne Hsum HP. unfold random_dot_choices.
  rewrite Hlen, Nat.eqb_refl. simpl.
  destruct population as [|x population]; [done|].
  destruct (Z.leb_spec (foldr Z.add 0 weights) 0); [lia|].
  apply returns_on_random. intros g. by apply HP, random_choices_elem.
Qed.

Lemma returns_uniform (a b : float) :
  returns (random_dot_uniform a b) (λ _, True).
Proof. by apply returns_on_random. Qed.

Lemma returns_normal (loc : Z) :
  45 ≤ loc ≤ 95 →
  returns (np_random_dot_normal loc 15) (λ x, is_finite x = true).
Proof.
  intros Hloc. unfold np_random_dot_normal.
  destruct (float_of_base_time loc Hloc) as (l & Hl & Hfin).
  eapply returns_bind; [by apply (returns_lift _ l (λ x, x = l))|].
  intros ? ->.
  eapply returns_bind;
    [by apply (returns_lift _ 15%float (λ x, x = 15%float))|].
  intros ? ->.
  apply returns_on_numpy. intros n. by apply np_random_normal_finite.
Qed.

Lemma returns_subscript (d : gmap string string) (k v : string) :
  d !! k = Some v → returns (lift (Py.subscript d k)) (λ x, x = v).
Proof.
  intros Hk. apply (returns_lift _ v); [|done].
  unfold Py.subscript. by rewrite Hk.
Qed.

Ltac step tac := eapply returns_bind; [tac|intros ? ?; cbv beta in *].

Lemma returns_time_spent (user_tests : gmap string string) descr shots :
  user_tests !! "description_test" = Some descr →
  user_tests !! "screenshots_test" = Some shots →
  returns (session_time_spent user_tests) (λ t, 5 ≤ t).
Proof.
  intros Hd Hs. unfold session_time_spent.
  step ltac:(by apply returns_subscript). subst.
  eapply (returns_bind _ _ (λ b, 45 ≤ b ≤ 75)).
  { destruct (String.eqb descr "variant_a").
    - step ltac:(apply (returns_randint 10 30 (λ d, 10 ≤ d ≤ 30)); [lia|done]).
      apply returns_ret. lia.
    - apply returns_ret. lia. }
  intros b1 Hb1.
  step ltac:(by apply returns_subscript). subst.
  eapply (returns_bind _ _ (λ b, 45 ≤ b ≤ 95)).
  { destruct (String.eqb shots "variant_a").
    - step ltac:(apply (returns_randint 5 20 (λ d, 5 ≤ d ≤ 20)); [lia|done]).
      apply returns_ret. lia.
    - apply returns_ret. lia. }
  intros b2 Hb2.
  step ltac:(by apply returns_normal).
  match goal with Hx : is_finite ?x = true |- _ =>
    destruct (int_of_finite x Hx) as [z Hz] end.
  step ltac:(by apply (returns_lift _ z (λ y, y = z))). subst.
  apply returns_ret. lia.
Qed.

Lemma returns_rating (user_tests : gmap string string) (conv : bool)
    icon pricing :
  user_tests !! "icon_design_test" = Some icon →
  user_tests !! "pricing_test" = Some pricing →
  returns (session_rating user_tests conv)
    (λ r, (is_Some r ↔ conv = true)
          ∧ ∀ x, r = Some x → (1 <=? x)%float = true ∧ (x <=? 5)%float = true).
Proof.
  intros Hi Hp. unfold session_rating. destruct conv.
  - step ltac:(by apply returns_subscript). subst.
    eapply (returns_bind _ _ (λ _, True)).
    { destruct (_ || _).
      - step ltac:(apply returns_uniform). by apply returns_ret.
      - by apply returns_ret. }
    intros b1 _.
    step ltac:(by apply returns_subscript). subst.
    eapply (returns_bind _ _ (λ _, True)).
    { destruct (String.eqb pricing "control").
      - step ltac:(apply returns_uniform). by apply returns_ret.
      - by apply returns_ret. }
    intros b2 _.
    step ltac:(apply returns_uniform).
    apply returns_ret. split; [by split; eauto|].
    intros x [= <-].
    match goal with |- context [Py.round1 (Py.min _ (Py.max _ ?y))] =>
      pose proof (rating_in_range y) as Hr end.
    unfold in_closed_range in Hr. by apply andb_prop in Hr.
  - apply returns_ret. split; [|done].
    split; [by intros [? ?]|done].
Qed.

Lemma returns_choice_elem (seq : list string) :
  seq ≠ [] → returns (random_dot_choice seq) (λ v, v ∈ seq).
Proof. intros Hne. by apply returns_choice. Qed.

(** The assignment loop gives every test one of its own variants. *)
Lemma returns_assign_variants :
  returns (assign_variants generate_test_variants ∅) drawn_from_catalog.
Proof.
  unfold generate_test_variants. cbn [assign_variants variants fmap list_fmap fst].
  step ltac:(by apply returns_choice_elem).
  step ltac:(by apply returns_choice_elem).
  step ltac:(by apply returns_choice_elem).
  step ltac:(by apply returns_choice_elem).
  apply returns_ret. unfold drawn_from_catalog, generate_test_variants.
  repeat apply Forall_cons_2; [..|apply Forall_nil_2];
    unfold assigned_from; cbn [fst snd variants]; by simplify_map_eq.
Qed.

Lemma returns_one_session (self : ABTestSimulator) :
  well_formed self → returns (generate_one_session self) session_ok.
Proof.
  intros (Hdev & Hcty & Hgen). unfold generate_one_session.
  step ltac:(by apply (returns_on_entropy _ (λ _, True))).
  step ltac:(by apply (returns_on_faker _ (λ _, True))).
  step ltac:(by apply (returns_choices _ _ (λ _, True))).
  step ltac:(apply (returns_choices _ _ (λ _, True));
             [by rewrite Hdev|by destruct (device_types self)|done|done]).
  step ltac:(apply (returns_choices _ _ (λ _, True));
             [by rewrite Hcty|by destruct (countries self)|done|done]).
  step ltac:(by apply (returns_choice _ (λ _, True))).
  step ltac:(by apply (returns_on_faker _ (λ _, True))).
  step ltac:(by apply (returns_on_faker _ (λ _, True))).
  step ltac:(apply returns_assign_variants).
  match goal with Hdrawn : drawn_from_catalog ?ut |- _ =>
    pose proof (drawn_complete _ Hdrawn) as Hcomplete;
    destruct (complete_lookups _ Hcomplete)
      as (icon & descr & pricing & shots & Hi & Hd & Hp & Hs)
  end.
  match goal with |- context [calculate_conversion_probability ?ut ?a ?d] =>
    destruct (conversion_probability_returns ut a d Hcomplete) as [p Hprob]
  end.
  step ltac:(by apply (returns_lift _ p (λ x, x = p))). subst.
  step ltac:(by apply (returns_on_random _ (λ _, True))).
  step ltac:(by eapply returns_time_spent).
  step ltac:(by eapply returns_rating).
  step ltac:(by apply returns_subscript).
  step ltac:(by apply returns_subscript).
  step ltac:(by apply returns_subscript).
  step ltac:(by apply returns_subscript).
  step ltac:(by apply (returns_on_entropy _ (λ _, True))).
  apply returns_ret. unfold session_ok. simpl. tauto.
Qed.

Lemma returns_sessions_loop (self : ABTestSimulator) (passes : nat)
    (sessions : list SessionRecord) :
  well_formed self → Forall session_ok sessions →
  returns (sessions_loop self passes sessions)
    (λ out, length out = (length sessions + passes)%nat ∧ Forall session_ok out).
Proof.
  intros Hwf. revert sessions.
  induction passes as [|passes IH]; intros sessions Hall; simpl.
  - apply returns_ret. split; [lia|done].
  - step ltac:(by apply returns_one_session).
    eapply returns_weaken.
    + apply IH. apply Forall_app. split; [done|]. by apply Forall_singleton.
    + intros out [Hlen Hout]. rewrite length_app in Hlen. simpl in Hlen.
      split; [lia|done].
Qed.

Lemma init_well_formed (n days : Z) (w0 w : world) (self : ABTestSimulator) :
  init n days w0 = Ok (self, w) → well_formed self ∧ num_users self = n.
Proof.
  unfold init, bind, on_clock, lift, ret.
  destruct (datetime_now (w_clock w0)) as [now1 c1].
  destruct (PyLib.sub_days now1 days) as [start|]; [|done]. simpl.
  destruct (datetime_now c1) as [now2 c2].
  intros [= <- <-]. by repeat split.
Qed.

Lemma generation_total (n days : Z) (w0 w : world) (self : ABTestSimulator) :
  init n days w0 = Ok (self, w) →
  ∃ sessions w',
    generate_user_sessions self w = Ok (sessions, w')
    ∧ w_db w' = w_db w
    ∧ length sessions = Z.to_nat n
    ∧ Forall session_ok sessions.
Proof.
  intros Hinit. destruct (init_well_formed _ _ _ _ _ Hinit) as [Hwf Hn].
  destruct (returns_sessions_loop self (Z.to_nat (num_users self)) []
              Hwf (Forall_nil_2 _) w) as (out & w' & Hrun & Hdb & Hlen & Hall).
  exists out, w'. unfold generate_user_sessions. rewrite Hn in *. done.
Qed.

(** *** Reproducibility *)
























(** C7: for every [n >= 0] the generator returns exactly [n] records;
    for [n = 0] the sequence is empty; the database is left as it was, so
    no sink is called. *)
Theorem generation_returns_n_records (n days : Z) (w0 w : world)
    (self : ABTestSimulator) :
  init n days w0 = Ok (self, w) →
  0 ≤ n →
  ∃ sessions w',
    generate_user_sessions self w = Ok (sessions, w')
    ∧ Z.of_nat (length sessions) = n
    ∧ (n = 0 → sessions = [])
    ∧ w_db w' = w_db w.
Proof.
  intros Hinit Hn.
  destruct (generation_total _ _ _ _ _ Hinit)
    as (sessions & w' & Hrun & Hdb & Hlen & _).
  exists sessions, w'. repeat split; [done|lia| |done].
  intros ->. destruct sessions; [done|discriminate Hlen].
Qed.

(** C4: generation returns, and in every record it returns the rating
    is present exactly when [converted] is true (so it is absent when
    [converted] is false), and a present rating lies in [1.0, 5.0]. *)
Theorem rating_present_iff_converted (n days : Z) (w0 w : world)
    (self : ABTestSimulator) :
  init n days w0 = Ok (self, w) →
  ∃ sessions w',
    generate_user_sessions self w = Ok (sessions, w')
    ∧ Forall (λ s, (is_Some (rating s) ↔ converted s = true)
                   ∧ (converted s = false → rating s = None)
                   ∧ (∀ x, rating s = Some x →
                           (1 <=? x)%float = true ∧ (x <=? 5)%float = true))
             sessions.
Proof.
  intros Hinit.
  destruct (generation_total _ _ _ _ _ Hinit)
    as (sessions & w' & Hrun & _ & _ & Hall).
  exists sessions, w'. split; [done|].
  eapply Forall_impl; [exact Hall|].
  intros s (_ & Hiff & Hrange). split; [exact Hiff|]. split; [|exact Hrange].
  intros Hconv. destruct (rating s) eqn:Hr; [|done].
  assert (converted s = true) by (apply Hiff; eauto). congruence.
Qed.

(** C6: generation returns, and in every record it returns
    [time_spent_seconds] is an integer that is at least 5, whatever the
    bonuses and the noise were. *)
Theorem time_spent_at_least_five (n days : Z) (w0 w : world)
    (self : ABTestSimulator) :
  init n days w0 = Ok (self, w) →
  ∃ sessions w',
    generate_user_sessions self w = Ok (sessions, w')
    ∧ Forall (λ s, 5 ≤ time_spent_seconds s) sessions.
Proof.
  intros Hinit.
  destruct (generation_total _ _ _ _ _ Hinit)
    as (sessions & w' & Hrun & _ & _ & Hall).
  exists sessions, w'. split; [done|].
  eapply Forall_impl; [exact Hall|]. by intros s (? & _).
Qed.

(** C2, as the code has it: nothing validates the population size.  For
    [n <= 0] the constructor either fails in its date arithmetic or
    stores [n] and the duration as given, and generation then returns the
    empty sequence in an unchanged world: no draw is made, nothing is
    raised. *)
Theorem nonpositive_population_yields_empty (n days : Z) (w : world) :
  n ≤ 0 →
  init n days w = Raise OverflowError
  ∨ ∃ self w1,
      init n days w = Ok (self, w1)
      ∧ num_users self = n
      ∧ test_duration_days self = days
      ∧ generate_user_sessions self w1 = Ok ([], w1).
Proof.
  intros Hn. unfold init, bind, on_clock, lift, ret.
  destruct (datetime_now (w_clock w)) as [now1 c1].
  unfold PyLib.sub_days.
  destruct (Z.abs days <=? 999999999); [|by left].
  destruct (PyLib.datetime_ok _); [|by left]. simpl.
  destruct (datetime_now c1) as [now2 c2].
  right. eexists _, _. split; [reflexivity|]. simpl.
  repeat split. unfold generate_user_sessions. simpl.
  replace (Z.to_nat n) with O by lia. reflexivity.
Qed.

End Generation.

(** ** Properties of the summary aggregation *)

Section Summary.

Implicit Types (rows group : list SessionRow) (key : SessionRow → string).

Lemma avg_fold (vals : list (option Q)) (total : Q) (n : Z) :
  fold_left Sql.avg_step vals (total, n)
  = (fold_left Qplus (omap id vals) total,
     n + Z.of_nat (length (omap id vals))).
Proof.
  revert total n. induction vals as [|[q|] vals IH]; intros total n; simpl.
  - f_equal. lia.
  - rewrite IH. cbn.
    change (list_omap (option Q) Q id vals) with (omap id vals).
    f_equal. lia.
  - apply IH.
Qed.

Lemma avg_numeric_fold group (total : Q) (n nans : Z) :
  fold_left Sql.avg_numeric_step (map row_rating group) (total, n, nans)
  = (fold_left Qplus (present_ratings group) total,
     n + Z.of_nat (length (present_ratings group))
       + Z.of_nat (length (nan_ratings group)),
     nans + Z.of_nat (length (nan_ratings group))).
Proof.
  unfold present_ratings, nan_ratings.
  revert total n nans.
  induction group as [|r group IH]; intros total n nans.
  - cbn. repeat (apply pair_equal_spec; split); try reflexivity; lia.
  - cbn [map fold_left Sql.avg_numeric_step]. rewrite filter_cons.
    change (omap rating_number (r :: group))
      with (match rating_number r with
            | Some q => q :: omap rating_number group
            | None => omap rating_number group
            end).
    pose proof (eq_refl : rating_number r = rating_number r) as Hnum.
    pose proof (eq_refl : rating_is_nan r = rating_is_nan r) as Hnan.
    unfold rating_number at 2 in Hnum. unfold rating_is_nan at 2 in Hnan.
    destruct (row_rating r) as [[q|]|]; rewrite IH, Hnum, Hnan.
    + rewrite decide_False by done. cbn [fold_left length].
      rewrite Nat2Z.inj_succ. repeat (apply pair_equal_spec; split); try reflexivity; lia.
    + rewrite decide_True by done. cbn [length].
      rewrite Nat2Z.inj_succ. repeat (apply pair_equal_spec; split); try reflexivity; lia.
    + rewrite decide_False by done. repeat (apply pair_equal_spec; split); try reflexivity; lia.
Qed.

Lemma nan_ratings_none group :
  Forall (λ r, row_rating r ≠ Some NumericNaN) group → nan_ratings group = [].
Proof.
  unfold nan_ratings. induction 1 as [|r group Hr _ IH]; [done|].
  rewrite filter_cons_False; [done|].
  unfold rating_is_nan. by destruct (row_rating r) as [[q|]|].
Qed.

Lemma nan_ratings_elem group r :
  r ∈ group → row_rating r = Some NumericNaN → nan_ratings group ≠ [].
Proof.
  intros Hin Hr Hnil.
  assert (Hnan : r ∈ nan_ratings group).
  { apply list_elem_of_filter. unfold rating_is_nan. by rewrite Hr. }
  rewrite Hnil in Hnan. by apply elem_of_nil in Hnan.
Qed.

(** [AVG(rating)] by the ratings of the group: NaN with a NaN among
    them, else the mean of the numbers, NULL when there is none. *)
Lemma avg_rating_cases group :
  Sql.avg_numeric (map row_rating group)
  = if bool_decide (nan_ratings group = []) then Num <$> mean_rating group
    else Some NumericNaN.
Proof.
  unfold Sql.avg_numeric, mean_rating. rewrite avg_numeric_fold, !Z.add_0_l.
  case_bool_decide as Hnan.
  - rewrite Hnan. cbn [length]. rewrite Z.add_0_r.
    destruct (present_ratings group) as [|q qs]; [done|].
    destruct (Z.eqb_spec (Z.of_nat (length (q :: qs))) 0) as [Hz|_];
      [simpl in Hz; lia|done].
  - destruct (nan_ratings group) as [|r rs]; [done|].
    destruct (Z.eqb_spec (Z.of_nat (length (present_ratings group))
                          + Z.of_nat (length (r :: rs))) 0) as [Hz|_];
      [simpl in Hz; lia|].
    destruct (Z.ltb_spec 0 (Z.of_nat (length (r :: rs)))) as [_|Hz];
      [done|simpl in Hz; lia].
Qed.

(** [AVG(rating)] is the specification's mean on a group without NaN. *)
Lemma avg_rating_is_mean group :
  Forall (λ r, row_rating r ≠ Some NumericNaN) group →
  Sql.avg_numeric (map row_rating group) = Num <$> mean_rating group.
Proof.
  intros Hall. rewrite avg_rating_cases.
  by rewrite bool_decide_eq_true_2 by by apply nan_ratings_none.
Qed.

(** A NaN among the ratings of a group makes [AVG(rating)] NaN. *)
Lemma avg_rating_nan group r :
  r ∈ group → row_rating r = Some NumericNaN →
  Sql.avg_numeric (map row_rating group) = Some NumericNaN.
Proof.
  intros Hin Hr. rewrite avg_rating_cases.
  by rewrite bool_decide_eq_false_2 by by eapply nan_ratings_elem.
Qed.

Lemma avg_of_values {A} (f : A → Q) (l : list A) :
  l ≠ [] → ∃ q, Sql.avg (map (λ a, Some (f a)) l) = Some q.
Proof.
  intros Hne. unfold Sql.avg. rewrite avg_fold.
  assert (Hlen : length (omap id (map (λ a, Some (f a)) l)) = length l).
  { clear Hne. induction l as [|a l IH]; [done|]. cbn. f_equal. exact IH. }
  rewrite Hlen, Z.add_0_l.
  destruct (Z.eqb_spec (Z.of_nat (length l)) 0) as [Hz|_]; [|eauto].
  destruct l; [done|simpl in Hz; lia].
Qed.

Lemma sum_fold (vals : list Z) (a : Z) :
  fold_left Z.add vals a = a + foldr Z.add 0 vals.
Proof.
  revert a. induction vals as [|v vals IH]; intros a; simpl; [lia|].
  rewrite IH. lia.
Qed.

(** [SUM(CASE WHEN converted THEN 1 ELSE 0 END)] counts the converted
    rows. *)
Lemma conversions_sum group :
  Sql.sum (map (λ c : bool, if c then 1 else 0) (map row_converted group))
  = converted_count group.
Proof.
  unfold Sql.sum, converted_count. rewrite sum_fold, Z.add_0_l.
  induction group as [|r group IH]; simpl; [done|].
  rewrite filter_cons. destruct (row_converted r) eqn:Hc.
  - rewrite decide_True by done. simpl length. lia.
  - rewrite decide_False by done. lia.
Qed.

(** *** [GROUP BY] *)

Lemma group_add_perm k r (groups : list (string * list SessionRow)) :
  concat (Sql.group_add k r groups).*2 ≡ₚ r :: concat groups.*2.
Proof.
  induction groups as [|[k' rs] groups IH]; simpl; [done|].
  destruct (String.eqb k k'); simpl.
  - rewrite <- app_assoc. simpl.
    by rewrite <- Permutation_middle.
  - rewrite IH. by rewrite Permutation_middle.
Qed.

Lemma group_by_snoc key rows r :
  Sql.group_by key (rows ++ [r])
  = Sql.group_add (key r) r (Sql.group_by key rows).
Proof. unfold Sql.group_by. by rewrite fold_left_app. Qed.

(** The groups are a partition of the rows. *)
Lemma group_by_perm key rows :
  concat (Sql.group_by key rows).*2 ≡ₚ rows.
Proof.
  induction rows as [|r rows IH] using rev_ind; [done|].
  rewrite group_by_snoc, group_add_perm, IH.
  by rewrite Permutation_cons_append.
Qed.

Lemma group_add_keys k r (groups : list (string * list SessionRow)) :
  (Sql.group_add k r groups).*1
  = if bool_decide (k ∈ groups.*1) then groups.*1 else groups.*1 ++ [k].
Proof.
  induction groups as [|[k' rs] groups IH]; [done|].
  cbn [Sql.group_add]. rewrite (fmap_cons fst (k', rs)). cbn [fst].
  destruct (String.eqb_spec k k') as [->|Hne]; rewrite fmap_cons; cbn [fst].
  - rewrite bool_decide_eq_true_2; [done|by left].
  - rewrite IH. destruct (bool_decide (k ∈ groups.*1)) eqn:Hin.
    + apply bool_decide_eq_true_1 in Hin.
      rewrite bool_decide_eq_true_2; [done|by right].
    + apply bool_decide_eq_false_1 in Hin.
      rewrite bool_decide_eq_false_2; [done|].
      intros [?|?]%elem_of_cons; done.
Qed.

Lemma group_by_keys_nodup key rows : NoDup (Sql.group_by key rows).*1.
Proof.
  induction rows as [|r rows IH] using rev_ind; [constructor|].
  rewrite group_by_snoc, group_add_keys. case_bool_decide as Hin; [done|].
  apply NoDup_app. split; [done|]. split; [|apply NoDup_singleton].
  intros k Hk ->%list_elem_of_singleton. done.
Qed.

Lemma group_add_nonempty k r (groups : list (string * list SessionRow)) :
  Forall (λ g, g.2 ≠ []) groups →
  Forall (λ g, g.2 ≠ []) (Sql.group_add k r groups).
Proof.
  induction 1 as [|[k' rs] groups Hne Hall IH]; simpl.
  - by repeat constructor.
  - destruct (String.eqb k k'); constructor; simpl; try done.
    by destruct rs.
Qed.

Lemma group_by_nonempty key rows :
  Forall (λ g, g.2 ≠ []) (Sql.group_by key rows).
Proof.
  induction rows as [|r rows IH] using rev_ind; [constructor|].
  rewrite group_by_snoc. by apply group_add_nonempty.
Qed.

Lemma assoc_group_add k r (groups : list (string * list SessionRow)) k' :
  assoc (Sql.group_add k r groups) k' []
  = if bool_decide (k' = k) then assoc groups k [] ++ [r]
    else assoc groups k' [].
Proof.
  induction groups as [|[k0 rs0] groups IH]; simpl.
  - destruct (String.eqb_spec k' k) as [->|Hne].
    + by rewrite bool_decide_eq_true_2.
    + by rewrite bool_decide_eq_false_2.
  - destruct (String.eqb_spec k k0) as [->|Hne]; simpl.
    + destruct (String.eqb_spec k' k0) as [->|Hne'].
      * by rewrite bool_decide_eq_true_2.
      * by rewrite bool_decide_eq_false_2.
    + destruct (String.eqb_spec k' k0) as [->|Hne'].
      * by rewrite bool_decide_eq_false_2.
      * apply IH.
Qed.

(** The group of a key holds the sessions of that variant, in order. *)
Lemma assoc_group_by key rows k :
  assoc (Sql.group_by key rows) k [] = sessions_of key k rows.
Proof.
  unfold sessions_of.
  induction rows as [|r rows IH] using rev_ind; [done|].
  rewrite group_by_snoc, assoc_group_add, filter_app, filter_cons, filter_nil.
  case_bool_decide as Hk.
  - subst k. rewrite decide_True by done. by rewrite IH.
  - rewrite decide_False by done. by rewrite IH, app_nil_r.
Qed.

Lemma assoc_elem {V} (table : list (string * V)) k v dflt :
  NoDup table.*1 → (k, v) ∈ table → assoc table k dflt = v.
Proof.
  induction table as [|[k0 v0] table IH]; simpl.
  - by intros _ ?%elem_of_nil.
  - intros [Hnot Hnd]%NoDup_cons [[= -> ->]|Hin]%elem_of_cons.
    + by rewrite String.eqb_refl.
    + destruct (String.eqb_spec k k0) as [->|_]; [|by apply IH].
      exfalso. apply Hnot. apply list_elem_of_fmap. by exists (k0, v).
Qed.

Lemma group_by_elem key rows k group :
  (k, group) ∈ Sql.group_by key rows →
  group = sessions_of key k rows ∧ group ≠ [].
Proof.
  intros Hin. split.
  - rewrite <- assoc_group_by.
    symmetry. by apply assoc_elem; [apply group_by_keys_nodup|].
  - pose proof (group_by_nonempty key rows) as Hall.
    rewrite Forall_forall in Hall. exact (Hall _ Hin).
Qed.

Lemma summary_row_ok test_name k group :
  group ≠ [] →
  ∃ row, summary_row test_name k group = Ok row
         ∧ describes test_name (k, group) row.
Proof.
  intros Hne. unfold summary_row.
  destruct (avg_of_values (λ c : bool, if c then 1%Q else 0%Q)
              (map row_converted group)) as [rate ->]; [by destruct group|].
  destruct (avg_of_values (λ r, inject_Z (row_time_spent_seconds r)) group)
    as [time ->]; [done|].
  eexists. split; [reflexivity|].
  unfold describes. simpl. repeat split.
  - apply conversions_sum.
  - apply avg_rating_is_mean.
Qed.

Lemma summary_rows_ok test_name (groups : list (string * list SessionRow)) :
  Forall (λ g, g.2 ≠ []) groups →
  ∃ out, summary_rows test_name groups = Ok out
         ∧ Forall2 (describes test_name) groups out.
Proof.
  induction 1 as [|[k group] groups Hne Hall (out & Hout & Hdesc)]; simpl.
  - exists []. by split; [|constructor].
  - destruct (summary_row_ok test_name k group Hne) as (row & -> & Hrow).
    simpl. rewrite Hout. simpl.
    exists (row :: out). by split; [|constructor].
Qed.

Lemma converted_count_app rows1 rows2 :
  converted_count (rows1 ++ rows2)
  = converted_count rows1 + converted_count rows2.
Proof. unfold converted_count. rewrite filter_app, length_app. lia. Qed.

Lemma described_sums test_name (groups : list (string * list SessionRow)) out :
  Forall2 (describes test_name) groups out →
  sum_of total_users out = Z.of_nat (length (concat groups.*2))
  ∧ sum_of conversions out = converted_count (concat groups.*2)
  ∧ variant_key <$> out = groups.*1
  ∧ Forall (λ r, sum_test_name r = test_name) out.
Proof.
  unfold sum_of.
  induction 1 as [|g row groups out (Hn & Hk & Ht & Hc & _) _
                    (IHt & IHc & IHk & IHn)].
  - repeat split. constructor.
  - rewrite !fmap_cons. cbn [foldr concat].
    rewrite IHt, IHc, IHk, Ht, Hc, Hk, length_app, converted_count_app.
    repeat split; [lia|by constructor].
Qed.

(** One [INSERT ... SELECT]: it computes a row per group, and the rows
    partition the sessions. *)
Lemma summary_select_ok test_name key rows :
  ∃ out,
    summary_select test_name key rows = Ok out
    ∧ Forall2 (describes test_name) (Sql.group_by key rows) out
    ∧ sum_of total_users out = Z.of_nat (length rows)
    ∧ sum_of conversions out = converted_count rows
    ∧ NoDup (variant_key <$> out)
    ∧ Forall (λ r, sum_test_name r = test_name) out.
Proof.
  unfold summary_select.
  destruct (summary_rows_ok test_name _ (group_by_nonempty key rows))
    as (out & Hout & Hdesc).
  destruct (described_sums _ _ _ Hdesc) as (Ht & Hc & Hk & Hn).
  pose proof (group_by_perm key rows) as Hperm.
  exists out. repeat split; try done.
  - by rewrite Ht, Hperm.
  - rewrite Hc. unfold converted_count. by rewrite Hperm.
  - rewrite Hk. apply group_by_keys_nodup.
Qed.

(** A row of the summary reports the sessions of its variant, and there
    is at least one. *)
Lemma described_row test_name key rows out row :
  Forall2 (describes test_name) (Sql.group_by key rows) out →
  row ∈ out →
  describes test_name (variant_key row, sessions_of key (variant_key row) rows) row
  ∧ sessions_of key (variant_key row) rows ≠ [].
Proof.
  intros Hdesc Hrow.
  destruct (proj1 (list_elem_of_lookup _ _) Hrow) as [i Hi].
  destruct (Forall2_lookup_r _ _ _ _ _ Hdesc Hi) as ([k group] & Hg & Hd).
  apply list_elem_of_lookup_2 in Hg.
  destruct (group_by_elem _ _ _ _ Hg) as [-> Hne].
  destruct Hd as (Hn & Hk & Hrest). simpl in Hk. subst k.
  split; [|done]. by split.
Qed.

End Summary.

Section SummaryRun.

Context {G N F E C : Type}.
Context `{!RandomModule G, !NumpyRandom N, !FakerProvider F,
          !OsEntropy E, !WallClock C}.

Local Abbreviation world := (@World G N F E C).

Lemma filter_all {A} (P : A → Prop) `{!∀ x, Decision (P x)} (l : list A) :
  Forall P l → filter P l = l.
Proof.
  induction 1 as [|x l HP Hall IH]; [done|].
  by rewrite filter_cons_True, IH.
Qed.

Lemma filter_none {A} (P : A → Prop) `{!∀ x, Decision (P x)} (l : list A) :
  Forall (λ x, ¬ P x) l → filter P l = [].
Proof.
  induction 1 as [|x l HP Hall IH]; [done|].
  by rewrite filter_cons_False, IH.
Qed.

Lemma summary_insert_ok (table new_rows : list SummaryRow) test_name :
  NoDup (summary_key <$> table) →
  Forall (λ r, sum_test_name r ≠ test_name) table →
  Forall (λ r, sum_test_name r = test_name) new_rows →
  NoDup (variant_key <$> new_rows) →
  summary_insert table new_rows = Ok (table ++ new_rows)
  ∧ NoDup (summary_key <$> (table ++ new_rows)).
Proof.
  intros Htable Hother Hname Hkeys.
  assert (Hnd : NoDup (summary_key <$> (table ++ new_rows))).
  { rewrite fmap_app. apply NoDup_app. split; [done|]. split.
    - intros key (r & -> & Hr)%list_elem_of_fmap (r' & Heq & Hr')%list_elem_of_fmap.
      rewrite Forall_forall in Hother, Hname.
      pose proof (Hother r Hr) as Hne. pose proof (Hname r' Hr') as Heq'.
      cbv beta in Hne, Heq'. unfold summary_key in Heq. congruence.
    - apply (NoDup_fmap_1 snd). by rewrite <- list_fmap_compose. }
  split; [|done]. unfold summary_insert. by rewrite bool_decide_eq_true_2.
Qed.

Lemma summary_select_names test_name key rows out :
  summary_select test_name key rows = Ok out →
  Forall (λ r, sum_test_name r = test_name) out.
Proof.
  intros Hout.
  destruct (summary_select_ok test_name key rows) as (out' & Hout' & _ & _ & _ & _ & ?).
  congruence.
Qed.

Lemma summary_statements_ok tests (db : Database) :
  NoDup tests.*1 →
  NoDup (summary_key <$> ab_test_summary db) →
  Forall (λ r, sum_test_name r ∉ tests.*1) (ab_test_summary db) →
  ∃ outs,
    Forall2 (λ t out, summary_select t.1 t.2 (ab_test_sessions db) = Ok out)
            tests outs
    ∧ summary_statements tests db
      = Ok {| ab_test_sessions := ab_test_sessions db;
              ab_test_summary := ab_test_summary db ++ concat outs |}.
Proof.
  revert db. induction tests as [|[test_name key] tests IH];
    intros db Hnames Htable Hfresh.
  - exists []. split; [constructor|]. simpl. rewrite app_nil_r. by destruct db.
  - rewrite fmap_cons in Hnames. cbn [fst] in Hnames.
    apply NoDup_cons in Hnames as [Hnot Hnames].
    destruct (summary_select_ok test_name key (ab_test_sessions db))
      as (out & Hout & _ & _ & _ & Hkeys & Hname).
    destruct (summary_insert_ok (ab_test_summary db) out test_name)
      as [Hins Hnd]; [done| |done|done|].
    { eapply Forall_impl; [exact Hfresh|]. intros r Hr Heq. apply Hr.
      rewrite fmap_cons, Heq. by left. }
    destruct (IH {| ab_test_sessions := ab_test_sessions db;
                    ab_test_summary := ab_test_summary db ++ out |})
      as (outs & Hsel & Hrun); [done|done| |].
    { simpl. apply Forall_app. split.
      - eapply Forall_impl; [exact Hfresh|]. intros r Hr Hin. apply Hr.
        rewrite fmap_cons. by right.
      - eapply Forall_impl; [exact Hname|]. intros r Heq. by rewrite Heq. }
    exists (out :: outs). split; [by constructor|].
    simpl in *. rewrite Hout. simpl. rewrite Hins. simpl. rewrite Hrun.
    by rewrite <- app_assoc.
Qed.

Lemma rows_of_other_tests tests outs (sessions : list SessionRow) :
  Forall2 (λ t out, summary_select t.1 t.2 sessions = Ok out) tests outs →
  Forall (λ r, sum_test_name r ∈ tests.*1) (concat outs).
Proof.
  induction 1 as [|[test_name key] out tests outs Hout _ IH]; [constructor|].
  simpl. apply Forall_app. split.
  - eapply Forall_impl; [exact (summary_select_names _ _ _ _ Hout)|].
    intros r Heq. rewrite Heq. by left.
  - eapply Forall_impl; [exact IH|]. intros r Hr. by right.
Qed.

(** The rows of the table that carry a test's name are the rows of that
    test's statement. *)
Lemma rows_of_test tests outs (sessions : list SessionRow) test_name key :
  NoDup tests.*1 →
  Forall2 (λ t out, summary_select t.1 t.2 sessions = Ok out) tests outs →
  (test_name, key) ∈ tests →
  ∃ out, summary_select test_name key sessions = Ok out
         ∧ filter (λ r, sum_test_name r = test_name) (concat outs) = out.
Proof.
  intros Hnames Hall. revert Hnames.
  induction Hall as [|[name0 key0] out0 tests outs Hout Hall IH]; intros Hnames Hin.
  - by apply elem_of_nil in Hin.
  - rewrite fmap_cons in Hnames. cbn [fst] in Hnames.
    apply NoDup_cons in Hnames as [Hnot Hnames].
    simpl concat. rewrite filter_app.
    apply elem_of_cons in Hin as [[= -> ->]|Hin].
    + exists out0. split; [done|].
      rewrite (filter_all _ out0) by exact (summary_select_names _ _ _ _ Hout).
      rewrite (filter_none _ (concat outs)); [by rewrite app_nil_r|].
      eapply Forall_impl; [exact (rows_of_other_tests _ _ _ Hall)|].
      intros r Hr Heq. apply Hnot. by rewrite <- Heq.
    + destruct (IH Hnames Hin) as (out & Hsel & Hfilter).
      exists out. split; [done|].
      rewrite (filter_none _ out0); [done|].
      eapply Forall_impl; [exact (summary_select_names _ _ _ _ Hout)|].
      intros r Hr Heq. apply Hnot. cbn [fst] in Hr. rewrite <- Hr, Heq.
      apply list_elem_of_fmap. by exists (test_name, key).
Qed.

Lemma summary_tests_names_nodup : NoDup summary_tests.*1.
Proof. apply (bool_decide_unpack (NoDup summary_tests.*1)). by vm_compute. Qed.

(** C8: run on an empty summary table, [generate_summary_statistics]
    succeeds, and for every test the rows that carry its name partition
    the sessions: their [total_users] add up to the number of sessions,
    their [conversions] to the number of converted sessions, and a
    variant that no session has gets no row. *)
Theorem summary_rows_partition_sessions (w : world) :
  ab_test_summary (w_db w) = [] →
  ∃ w',
    generate_summary_statistics w = Ok (tt, w')
    ∧ ∀ test_name key, (test_name, key) ∈ summary_tests →
        let sessions := ab_test_sessions (w_db w) in
        let rows := filter (λ r, sum_test_name r = test_name)
                           (ab_test_summary (w_db w')) in
        sum_of total_users rows = Z.of_nat (length sessions)
        ∧ sum_of conversions rows = converted_count sessions
        ∧ ∀ k, (∀ s, s ∈ sessions → key s ≠ k) →
               ∀ r, r ∈ rows → variant_key r ≠ k.
Proof.
  intros Hempty.
  destruct (summary_statements_ok summary_tests (w_db w))
    as (outs & Hsel & Hrun).
  { apply summary_tests_names_nodup. }
  { rewrite Hempty. constructor. }
  { rewrite Hempty. constructor. }
  unfold generate_summary_statistics. rewrite Hrun.
  eexists. split; [reflexivity|].
  intros test_name key Hin. cbv zeta. cbn [w_db ab_test_summary].
  rewrite Hempty, app_nil_l.
  destruct (rows_of_test _ _ _ _ _ summary_tests_names_nodup Hsel Hin)
    as (out & Hout & ->).
  destruct (summary_select_ok test_name key (ab_test_sessions (w_db w)))
    as (out' & Hout' & Hdesc & Htotal & Hconv & _).
  assert (out' = out) as -> by congruence.
  split; [done|]. split; [done|].
  intros k Hnone r Hr Hk.
  destruct (described_row _ _ _ _ _ Hdesc Hr) as [_ Hne].
  apply Hne. unfold sessions_of. apply filter_none.
  apply Forall_forall. intros s Hs. rewrite Hk. by apply Hnone.
Qed.

End SummaryRun.

(** ** The properties on concrete inputs *)

Section Runs.

Import Fixture.

Lemma conversion_probability_in_range_witness :
  drawn_from_catalog sample_assignment
  ∧ ∃ p, calculate_conversion_probability sample_assignment "13-17" "Vision Pro"
         = Ok p
         ∧ (0.01 <=? p)%float = true ∧ (p <=? 0.95)%float = true.
Proof.
  split.
  - apply (bool_decide_unpack (drawn_from_catalog sample_assignment)).
    vm_compute. exact I.
  - apply (conversion_probability_in_range sample_assignment).
    apply (bool_decide_unpack (drawn_from_catalog sample_assignment)).
    vm_compute. exact I.
Defined.

Lemma conversion_probability_order_witness :
  complete_assignment sample_assignment
  ∧ calculate_conversion_probability sample_assignment "13-17" "Mac"
    = Ok (Spec.probability (λ test, Py.get sample_assignment test "")
                           "13-17" "Mac")
  ∧ ("13-17" ∉ known_age_groups →
     Py.get age_multipliers "13-17" 1.0%float = 1.0%float)
  ∧ ("Mac" ∉ known_device_types →
     Py.get device_multipliers "Mac" 1.0%float = 1.0%float).
Proof.
  split.
  - apply (bool_decide_unpack (complete_assignment sample_assignment)).
    vm_compute. exact I.
  - apply (conversion_probability_order sample_assignment).
    apply (bool_decide_unpack (complete_assignment sample_assignment)).
    vm_compute. exact I.
Defined.

Lemma clamp_is_identity_on_reachable_witness :
  drawn_from_catalog sample_assignment
  ∧ "18-24" ∈ known_age_groups
  ∧ "iPhone" ∈ known_device_types
  ∧ ∃ p, conversion_base_prob sample_assignment "18-24" "iPhone" = Ok p
         ∧ (0.072 <=? p)%float = true ∧ (p <=? 0.366)%float = true
         ∧ calculate_conversion_probability sample_assignment "18-24" "iPhone"
           = Ok p
         ∧ (0.01 <? p)%float = true ∧ (p <? 0.95)%float = true.
Proof.
  assert (Hdrawn : drawn_from_catalog sample_assignment).
  { apply (bool_decide_unpack (drawn_from_catalog sample_assignment)).
    vm_compute. exact I. }
  assert (Hage : "18-24" ∈ known_age_groups).
  { apply (bool_decide_unpack ("18-24" ∈ known_age_groups)).
    vm_compute. exact I. }
  assert (Hdev : "iPhone" ∈ known_device_types).
  { apply (bool_decide_unpack ("iPhone" ∈ known_device_types)).
    vm_compute. exact I. }
  repeat split; [exact Hdrawn|exact Hage|exact Hdev|].
  exact (clamp_is_identity_on_reachable sample_assignment "18-24" "iPhone"
           Hdrawn Hage Hdev).
Defined.

Lemma generation_returns_n_records_witness :
  ∃ self w,
    sample_init = Ok (self, w)
    ∧ 0 ≤ 3
    ∧ ∃ sessions w',
        generate_user_sessions self w = Ok (sessions, w')
        ∧ Z.of_nat (length sessions) = 3
        ∧ (3 = 0 → sessions = [])
        ∧ w_db w' = w_db w.
Proof.
  eexists _, _. split; [reflexivity|]. split; [lia|].
  apply (generation_returns_n_records 3 30 (start 0 sample_clock));
    [reflexivity|lia].
Defined.

Lemma rating_present_iff_converted_witness :
  ∃ self w,
    sample_init = Ok (self, w)
    ∧ ∃ sessions w',
        generate_user_sessions self w = Ok (sessions, w')
        ∧ Forall (λ s, (is_Some (rating s) ↔ converted s = true)
                       ∧ (converted s = false → rating s = None)
                       ∧ (∀ x, rating s = Some x →
                               (1 <=? x)%float = true ∧ (x <=? 5)%float = true))
                 sessions.
Proof.
  eexists _, _. split; [reflexivity|].
  apply (rating_present_iff_converted 3 30 (start 0 sample_clock)).
  reflexivity.
Defined.

Lemma time_spent_at_least_five_witness :
  ∃ self w,
    sample_init = Ok (self, w)
    ∧ ∃ sessions w',
        generate_user_sessions self w = Ok (sessions, w')
        ∧ Forall (λ s, 5 ≤ time_spent_seconds s) sessions.
Proof.
  eexists _, _. split; [reflexivity|].
  apply (time_spent_at_least_five 3 30 (start 0 sample_clock)).
  reflexivity.
Defined.

Lemma nonpositive_population_yields_empty_witness :
  -1 ≤ 0
  ∧ (init (-1) 30 (start 0 sample_clock) = Raise OverflowError
     ∨ ∃ self w1,
         init (-1) 30 (start 0 sample_clock) = Ok (self, w1)
         ∧ num_users self = -1
         ∧ test_duration_days self = 30
         ∧ generate_user_sessions self w1 = Ok ([], w1)).
Proof.
  split; [lia|].
  apply (nonpositive_population_yields_empty (-1) 30 (start 0 sample_clock)).
  lia.
Defined.

Lemma summary_rows_partition_sessions_witness :
  let w := module_import 0%nat sample_clock sample_db in
  ab_test_summary (w_db w) = []
  ∧ ∃ w',
      generate_summary_statistics w = Ok (tt, w')
      ∧ ∀ test_name key, (test_name, key) ∈ summary_tests →
          let sessions := ab_test_sessions (w_db w) in
          let rows := filter (λ r, sum_test_name r = test_name)
                             (ab_test_summary (w_db w')) in
          sum_of total_users rows = Z.of_nat (length sessions)
          ∧ sum_of conversions rows = converted_count sessions
          ∧ ∀ k, (∀ s, s ∈ sessions → key s ≠ k) →
                 ∀ r, r ∈ rows → variant_key r ≠ k.
Proof.
  intros w. split; [reflexivity|].
  apply (summary_rows_partition_sessions w). reflexivity.
Defined.

(** C9: on the table that the program stores for three sessions, of
    which the second has no rating and so NaN in [rating],
    [generate_summary_statistics] succeeds and reports NaN as the mean
    rating of two groups.  The free-pricing group holds the ratings 4.3
    and NaN: the mean over the records with a present rating is 4.3.
    The group of the icon variant_b holds NaN only: no record has a
    present rating, and the mean should be absent (NULL). *)
Theorem mean_rating_is_nan_beside_unrated :
  let w := module_import 0%nat sample_clock sample_db in
  let rating_of test_name variant table :=
    avg_rating <$> filter (λ r, sum_test_name r = test_name
                                ∧ variant_key r = variant) table in
  ∃ w',
    generate_summary_statistics w = Ok (tt, w')
    ∧ rating_of "Pricing Strategy Test" "control" (ab_test_summary (w_db w'))
      = [Some NumericNaN]
    ∧ mean_rating (sessions_of row_pricing_variant "control" sample_sessions)
      = Some (43 # 10)%Q
    ∧ rating_of "App Icon Design Test" "variant_b" (ab_test_summary (w_db w'))
      = [Some NumericNaN]
    ∧ mean_rating (sessions_of row_icon_design_variant "variant_b"
                     sample_sessions)
      = None.
Proof.
  intros w rating_of. eexists. split; [vm_compute; reflexivity|].
  repeat split; vm_compute; reflexivity.
Qed.


(** C2 as stated fails: a negative population size is not rejected; the
    run returns an empty sequence. *)
Lemma negative_population_is_not_rejected :
  run (-1) 30 0 sample_clock = Ok [].
Proof. vm_compute. reflexivity. Qed.

End Runs.

(** ** More of the conversion model: errors and the order of effects *)

(** The keys that [calculate_conversion_probability] reads, in the order
    in which it reads them. *)
Definition test_keys : list string := generate_test_variants.*1.

(** The probability with [v1] assigned to [test] is below the one with
    [v2], everything else equal. *)
Definition probability_below (user_tests : gmap string string)
    (age dev test v1 v2 : string) : Prop :=
  ∃ p q,
    calculate_conversion_probability (<[test := v1]> user_tests) age dev = Ok p
    ∧ calculate_conversion_probability (<[test := v2]> user_tests) age dev = Ok q
    ∧ (p <? q)%float = true.

(** The probability for [age1] is below the one for [age2], and the one
    for [dev1] below the one for [dev2]. *)
Definition age_below (user_tests : gmap string string)
    (dev age1 age2 : string) : Prop :=
  ∃ p q,
    calculate_conversion_probability user_tests age1 dev = Ok p
    ∧ calculate_conversion_probability user_tests age2 dev = Ok q
    ∧ (p <? q)%float = true.

Definition device_below (user_tests : gmap string string)
    (age dev1 dev2 : string) : Prop :=
  ∃ p q,
    calculate_conversion_probability user_tests age dev1 = Ok p
    ∧ calculate_conversion_probability user_tests age dev2 = Ok q
    ∧ (p <? q)%float = true.

(** A check on every outcome of the six comparisons and every pair of
    factors. *)
Definition for_all_inputs
    (f : bool → bool → bool → bool → bool → bool → float → float → bool)
  : bool :=
  all_bool (λ b1, all_bool (λ b2, all_bool (λ b3,
  all_bool (λ b4, all_bool (λ b5, all_bool (λ b6,
    forallb (λ a, forallb (λ d, f b1 b2 b3 b4 b5 b6 a d) device_factors)
            age_factors)))))).

Section ConversionEffects.

Implicit Types (user_tests : gmap string string) (age dev : string).

Lemma for_all_inputs_elim f b1 b2 b3 b4 b5 b6 a d :
  for_all_inputs f = true → a ∈ age_factors → d ∈ device_factors →
  f b1 b2 b3 b4 b5 b6 a d = true.
Proof.
  unfold for_all_inputs. intros Hall Ha Hd.
  pose proof (all_bool_elim _ Hall b1) as H1. cbv beta in H1.
  pose proof (all_bool_elim _ H1 b2) as H2. cbv beta in H2.
  pose proof (all_bool_elim _ H2 b3) as H3. cbv beta in H3.
  pose proof (all_bool_elim _ H3 b4) as H4. cbv beta in H4.
  pose proof (all_bool_elim _ H4 b5) as H5. cbv beta in H5.
  pose proof (all_bool_elim _ H5 b6) as H6. cbv beta in H6.
  pose proof (forallb_elem_of _ _ _ H6 Ha) as H7. cbv beta in H7.
  exact (forallb_elem_of _ _ _ H7 Hd).
Qed.

(** The value returned on an assignment that has the four keys. *)
Lemma probability_value user_tests age dev icon descr pricing shots :
  user_tests !! "icon_design_test" = Some icon →
  user_tests !! "description_test" = Some descr →
  user_tests !! "pricing_test" = Some pricing →
  user_tests !! "screenshots_test" = Some shots →
  calculate_conversion_probability user_tests age dev
  = Ok (code_value_of
          (String.eqb icon "variant_a") (String.eqb icon "variant_b")
          (String.eqb descr "variant_a")
          (String.eqb pricing "control") (String.eqb pricing "variant_a")
          (String.eqb shots "variant_a")
          (Py.get age_multipliers age 1.0%float)
          (Py.get device_multipliers dev 1.0%float)).
Proof.
  intros Hi Hd Hp Hs. unfold calculate_conversion_probability.
  by rewrite (conversion_base_prob_eq _ _ _ _ _ _ _ Hi Hd Hp Hs).
Qed.

(** X1: the function raises [KeyError] for the first test key, in
    catalog order, that the assignment lacks, and returns a probability
    exactly when none is missing. *)
Theorem missing_test_key_raises user_tests age dev :
  match filter (λ k, user_tests !! k = None) test_keys with
  | [] => ∃ p, calculate_conversion_probability user_tests age dev = Ok p
  | k :: _ =>
      calculate_conversion_probability user_tests age dev = Raise (KeyError k)
  end.
Proof.
  unfold test_keys, generate_test_variants.
  rewrite !fmap_cons, fmap_nil. cbn [fst].
  unfold calculate_conversion_probability, conversion_base_prob, Py.subscript.
  rewrite !filter_cons, filter_nil.
  destruct (user_tests !! "icon_design_test") as [icon|] eqn:Hi;
    [rewrite decide_False by done|by rewrite decide_True].
  destruct (user_tests !! "description_test") as [descr|] eqn:Hd;
    [rewrite decide_False by done|by rewrite decide_True].
  destruct (user_tests !! "pricing_test") as [pricing|] eqn:Hp;
    [rewrite decide_False by done|by rewrite decide_True].
  destruct (user_tests !! "screenshots_test") as [shots|] eqn:Hs;
    [rewrite decide_False by done|by rewrite decide_True].
  simpl. eauto.
Qed.

Lemma icon_order_check :
  for_all_inputs (λ _ _ b3 b4 b5 b6 a d,
    (code_value_of false false b3 b4 b5 b6 a d
       <? code_value_of true false b3 b4 b5 b6 a d)%float
    && (code_value_of true false b3 b4 b5 b6 a d
          <? code_value_of false true b3 b4 b5 b6 a d)%float) = true.
Proof. vm_compute. reflexivity. Qed.

Lemma description_order_check :
  for_all_inputs (λ b1 b2 _ b4 b5 b6 a d,
    (code_value_of b1 b2 false b4 b5 b6 a d
       <? code_value_of b1 b2 true b4 b5 b6 a d)%float) = true.
Proof. vm_compute. reflexivity. Qed.

Lemma pricing_order_check :
  for_all_inputs (λ b1 b2 b3 _ _ b6 a d,
    (code_value_of b1 b2 b3 false false b6 a d
       <? code_value_of b1 b2 b3 false true b6 a d)%float
    && (code_value_of b1 b2 b3 false true b6 a d
          <? code_value_of b1 b2 b3 true false b6 a d)%float) = true.
Proof. vm_compute. reflexivity. Qed.

Lemma screenshots_order_check :
  for_all_inputs (λ b1 b2 b3 b4 b5 _ a d,
    (code_value_of b1 b2 b3 b4 b5 false a d
       <? code_value_of b1 b2 b3 b4 b5 true a d)%float) = true.
Proof. vm_compute. reflexivity. Qed.

Lemma age_order_check :
  for_all_inputs (λ b1 b2 b3 b4 b5 b6 _ d,
    (code_value_of b1 b2 b3 b4 b5 b6 0.8 d
       <? code_value_of b1 b2 b3 b4 b5 b6 0.9 d)%float
    && (code_value_of b1 b2 b3 b4 b5 b6 0.9 d
          <? code_value_of b1 b2 b3 b4 b5 b6 1.0 d)%float
    && (code_value_of b1 b2 b3 b4 b5 b6 1.0 d
          <? code_value_of b1 b2 b3 b4 b5 b6 1.1 d)%float
    && (code_value_of b1 b2 b3 b4 b5 b6 1.1 d
          <? code_value_of b1 b2 b3 b4 b5 b6 1.2 d)%float) = true.
Proof. vm_compute. reflexivity. Qed.

Lemma device_order_check :
  for_all_inputs (λ b1 b2 b3 b4 b5 b6 a _,
    (code_value_of b1 b2 b3 b4 b5 b6 a 0.6
       <? code_value_of b1 b2 b3 b4 b5 b6 a 0.7)%float
    && (code_value_of b1 b2 b3 b4 b5 b6 a 0.7
          <? code_value_of b1 b2 b3 b4 b5 b6 a 0.9)%float
    && (code_value_of b1 b2 b3 b4 b5 b6 a 0.9
          <? code_value_of b1 b2 b3 b4 b5 b6 a 1.0)%float) = true.
Proof. vm_compute. reflexivity. Qed.

Lemma age_multiplier_values :
  Py.get age_multipliers "18-24" 1.0%float = 1.2%float
  ∧ Py.get age_multipliers "25-34" 1.0%float = 1.1%float
  ∧ Py.get age_multipliers "35-44" 1.0%float = 1.0%float
  ∧ Py.get age_multipliers "45-54" 1.0%float = 0.9%float
  ∧ Py.get age_multipliers "55+" 1.0%float = 0.8%float.
Proof. repeat split; vm_compute; reflexivity. Qed.

Lemma device_multiplier_values :
  Py.get device_multipliers "iPhone" 1.0%float = 1.0%float
  ∧ Py.get device_multipliers "iPad" 1.0%float = 0.9%float
  ∧ Py.get device_multipliers "Apple Watch" 1.0%float = 0.7%float
  ∧ Py.get device_multipliers "Mac" 1.0%float = 0.6%float.
Proof. repeat split; vm_compute; reflexivity. Qed.

(** The lookups of an assignment after one entry is set. *)
Ltac after_insert :=
  first [ rewrite lookup_insert_eq; reflexivity
        | rewrite lookup_insert_ne by done; eassumption ].

Ltac below check :=
  unfold probability_below; eexists _, _;
  split; [apply probability_value; after_insert|];
  split; [apply probability_value; after_insert|];
  match goal with
  | |- (code_value_of ?b1 ?b2 ?b3 ?b4 ?b5 ?b6 ?a ?d <? _)%float = true =>
      let H := fresh "Hcheck" in
      pose proof (for_all_inputs_elim _ b1 b2 b3 b4 b5 b6 a d check
                    (age_factor_cases _) (device_factor_cases _)) as H;
      cbv beta in H;
      repeat match goal with
             | H' : _ && _ = true |- _ => apply andb_prop in H' as [? ?]
             end;
      assumption
  end.

(** X3: on an assignment with an entry per test, changing one variant
    moves the probability strictly, whatever the other variants, the age
    group and the device type are: for the icon control < variant_a <
    variant_b, for the description and for the screenshots control <
    variant_a, and for the pricing variant_b (paid) < variant_a
    (freemium) < control (free). *)
Theorem variant_effects_are_ordered user_tests age dev :
  complete_assignment user_tests →
  probability_below user_tests age dev "icon_design_test" "control" "variant_a"
  ∧ probability_below user_tests age dev "icon_design_test" "variant_a" "variant_b"
  ∧ probability_below user_tests age dev "description_test" "control" "variant_a"
  ∧ probability_below user_tests age dev "pricing_test" "variant_b" "variant_a"
  ∧ probability_below user_tests age dev "pricing_test" "variant_a" "control"
  ∧ probability_below user_tests age dev "screenshots_test" "control" "variant_a".
Proof.
  intros Hc.
  destruct (complete_lookups _ Hc)
    as (icon & descr & pricing & shots & Hi & Hd & Hp & Hs).
  repeat split.
  - below icon_order_check.
  - below icon_order_check.
  - below description_order_check.
  - below pricing_order_check.
  - below pricing_order_check.
  - below screenshots_order_check.
Qed.

Ltac by_factor check :=
  eexists _, _;
  split; [by eapply probability_value|];
  split; [by eapply probability_value|];
  match goal with
  | |- (code_value_of ?b1 ?b2 ?b3 ?b4 ?b5 ?b6 _ _ <? _)%float = true =>
      let H := fresh "Hcheck" in
      pose proof (λ a d, for_all_inputs_elim _ b1 b2 b3 b4 b5 b6 a d check) as H
  end.

(** X4: on an assignment with an entry per test and for any device
    type, the probability falls strictly with the age group, from
    "18-24" down to "55+"; an age group outside the table gets the
    probability of "35-44". *)
Theorem probability_falls_with_age user_tests dev :
  complete_assignment user_tests →
  age_below user_tests dev "55+" "45-54"
  ∧ age_below user_tests dev "45-54" "35-44"
  ∧ age_below user_tests dev "35-44" "25-34"
  ∧ age_below user_tests dev "25-34" "18-24"
  ∧ ∀ age, age ∉ known_age_groups →
      calculate_conversion_probability user_tests age dev
      = calculate_conversion_probability user_tests "35-44" dev.
Proof.
  intros Hc.
  destruct (complete_lookups _ Hc)
    as (icon & descr & pricing & shots & Hi & Hd & Hp & Hs).
  destruct age_multiplier_values as (E1 & E2 & E3 & E4 & E5).
  assert (Hage : (1.0%float : float) ∈ age_factors)
    by (unfold age_factors; set_solver).
  repeat split; unfold age_below.
  - by_factor age_order_check. rewrite E5, E4.
    specialize (Hcheck _ _ Hage (device_factor_cases dev)). cbv beta in Hcheck.
    apply andb_prop in Hcheck as [Hcheck _]. apply andb_prop in Hcheck as [Hcheck _].
    by apply andb_prop in Hcheck as [Hcheck _].
  - by_factor age_order_check. rewrite E4, E3.
    specialize (Hcheck _ _ Hage (device_factor_cases dev)). cbv beta in Hcheck.
    apply andb_prop in Hcheck as [Hcheck _]. apply andb_prop in Hcheck as [Hcheck _].
    by apply andb_prop in Hcheck as [_ Hcheck].
  - by_factor age_order_check. rewrite E3, E2.
    specialize (Hcheck _ _ Hage (device_factor_cases dev)). cbv beta in Hcheck.
    apply andb_prop in Hcheck as [Hcheck _].
    by apply andb_prop in Hcheck as [_ Hcheck].
  - by_factor age_order_check. rewrite E2, E1.
    specialize (Hcheck _ _ Hage (device_factor_cases dev)). cbv beta in Hcheck.
    by apply andb_prop in Hcheck as [_ Hcheck].
  - intros age Hage'.
    rewrite !(probability_value _ _ _ _ _ _ _ Hi Hd Hp Hs).
    by rewrite (unknown_age_is_neutral _ Hage'), E3.
Qed.

(** X5: on an assignment with an entry per test and for any age group,
    the probability is strictly ordered by device type, Mac < Apple Watch
    < iPad < iPhone; a device type outside the table gets the probability
    of "iPhone". *)
Theorem probability_ordered_by_device user_tests age :
  complete_assignment user_tests →
  device_below user_tests age "Mac" "Apple Watch"
  ∧ device_below user_tests age "Apple Watch" "iPad"
  ∧ device_below user_tests age "iPad" "iPhone"
  ∧ ∀ dev, dev ∉ known_device_types →
      calculate_conversion_probability user_tests age dev
      = calculate_conversion_probability user_tests age "iPhone".
Proof.
  intros Hc.
  destruct (complete_lookups _ Hc)
    as (icon & descr & pricing & shots & Hi & Hd & Hp & Hs).
  destruct device_multiplier_values as (E1 & E2 & E3 & E4).
  assert (Hdev : (1.0%float : float) ∈ device_factors)
    by (unfold device_factors; set_solver).
  repeat split; unfold device_below.
  - by_factor device_order_check. rewrite E4, E3.
    specialize (Hcheck _ _ (age_factor_cases age) Hdev). cbv beta in Hcheck.
    apply andb_prop in Hcheck as [Hcheck _].
    by apply andb_prop in Hcheck as [Hcheck _].
  - by_factor device_order_check. rewrite E3, E2.
    specialize (Hcheck _ _ (age_factor_cases age) Hdev). cbv beta in Hcheck.
    apply andb_prop in Hcheck as [Hcheck _].
    by apply andb_prop in Hcheck as [_ Hcheck].
  - by_factor device_order_check. rewrite E2, E1.
    specialize (Hcheck _ _ (age_factor_cases age) Hdev). cbv beta in Hcheck.
    by apply andb_prop in Hcheck as [_ Hcheck].
  - intros dev Hdev'.
    rewrite !(probability_value _ _ _ _ _ _ _ Hi Hd Hp Hs).
    by rewrite (unknown_device_is_neutral _ Hdev'), E1.
Qed.

(** X2: a variant key that has no listed effect is accepted and counts
    as the variant without effect: for the icon, the description and the
    screenshots it gives the result of "control", for the pricing the
    result of "variant_b" (also when that result is a [KeyError] for
    another test). *)
Theorem unlisted_variant_counts_as_baseline user_tests age dev v :
  (v ≠ "variant_a" → v ≠ "variant_b" →
   calculate_conversion_probability (<["icon_design_test" := v]> user_tests) age dev
   = calculate_conversion_probability
       (<["icon_design_test" := "control"]> user_tests) age dev)
  ∧ (v ≠ "variant_a" →
     calculate_conversion_probability (<["description_test" := v]> user_tests) age dev
     = calculate_conversion_probability
         (<["description_test" := "control"]> user_tests) age dev)
  ∧ (v ≠ "control" → v ≠ "variant_a" →
     calculate_conversion_probability (<["pricing_test" := v]> user_tests) age dev
     = calculate_conversion_probability
         (<["pricing_test" := "variant_b"]> user_tests) age dev)
  ∧ (v ≠ "variant_a" →
     calculate_conversion_probability (<["screenshots_test" := v]> user_tests) age dev
     = calculate_conversion_probability
         (<["screenshots_test" := "control"]> user_tests) age dev).
Proof.
  unfold calculate_conversion_probability, conversion_base_prob, Py.subscript.
  repeat split; intros;
    rewrite ?lookup_insert_eq, ?lookup_insert_ne by done;
    repeat match goal with
           | |- context [user_tests !! ?k] => destruct (user_tests !! k)
           end;
    cbn [rbind]; try reflexivity;
    repeat match goal with
           | H : v ≠ _ |- _ => apply String.eqb_neq in H; rewrite H; clear H
           end;
    reflexivity.
Qed.

End ConversionEffects.

(** ** More of the session generator: what a record can hold *)

(** The lists that the constructor stores. *)
Definition known_countries : list string :=
  [ "US"; "UK"; "CA"; "AU"; "DE"; "FR"; "JP"; "IN"; "BR"; "MX" ].

Definition known_genres : list string :=
  [ "Games"; "Entertainment"; "Education"; "Photo & Video";
    "Music"; "Social Networking"; "Shopping"; "Productivity";
    "Finance"; "Sports"; "Food & Drink"; "Travel"; "News";
    "Health & Fitness"; "Utilities"; "Weather"; "Reference" ].

(** The assignment that a record carries in its four variant fields. *)
Definition assignment_of (s : SessionRecord) : gmap string string :=
  <["screenshots_test" := screenshots_variant s]>
    (<["pricing_test" := pricing_variant s]>
       (<["description_test" := description_variant s]>
          (<["icon_design_test" := icon_design_variant s]> ∅))).

(** The double nearest to [n / 10]. *)
Definition tenth (n : nat) : float :=
  SF2Prim (SFdiv prec emax (S754_finite false (Pos.of_nat n) 0)
                           (S754_finite false 10 0)).

(** The doubles nearest to 1.0, 1.1, ..., 5.0. *)
Definition rating_values : list float := tenth <$> seq 10 41.

(** Every sampled field of a record comes from the list it is drawn
    from. *)
Definition session_drawn (s : SessionRecord) : Prop :=
  age_group s ∈ known_age_groups
  ∧ device_type s ∈ known_device_types
  ∧ country s ∈ known_countries
  ∧ app_genre s ∈ known_genres
  ∧ drawn_from_catalog (assignment_of s).

Section Records.

Context {G N F E C : Type}.
Context `{!RandomModule G, !NumpyRandom N, !FakerProvider F,
          !OsEntropy E, !WallClock C}.

Local Abbreviation world := (@World G N F E C).
Local Abbreviation stmt := (@M G N F E C).

Example rating_values_listed :
  rating_values
  = [ 1.0; 1.1; 1.2; 1.3; 1.4; 1.5; 1.6; 1.7; 1.8; 1.9;
      2.0; 2.1; 2.2; 2.3; 2.4; 2.5; 2.6; 2.7; 2.8; 2.9;
      3.0; 3.1; 3.2; 3.3; 3.4; 3.5; 3.6; 3.7; 3.8; 3.9;
      4.0; 4.1; 4.2; 4.3; 4.4; 4.5; 4.6; 4.7; 4.8; 4.9; 5.0 ]%float.
Proof. vm_compute. reflexivity. Qed.

Lemma tenth_elem (n : nat) : (10 ≤ n ≤ 50)%nat → tenth n ∈ rating_values.
Proof.
  intros Hn. unfold rating_values. apply list_elem_of_fmap.
  exists n. split; [done|]. apply list_elem_of_In, in_seq. lia.
Qed.

Lemma round1_one : Py.round1 1 = tenth 10.
Proof. vm_compute. reflexivity. Qed.

Lemma round1_five : Py.round1 5 = tenth 50.
Proof. vm_compute. reflexivity. Qed.

(** The clamped and rounded rating is one of the 41 values. *)
Lemma rating_is_tenth (x : float) :
  Py.round1 (Py.min 5 (Py.max 1 x)) ∈ rating_values.
Proof.
  destruct (rating_clamp_cases x) as [ -> | [ -> | [H1 H5] ] ].
  - rewrite round1_one. apply tenth_elem. lia.
  - rewrite round1_five. apply tenth_elem. lia.
  - destruct (strictly_inside_cases _ H1 H5) as (m & e & Hsf & He & Hm).
    unfold Py.round1. rewrite Hsf.
    destruct (Z.leb_spec 0 e) as [?|_]; [lia|].
    assert (0 < 2 ^ (- e)) by (apply Z.pow_pos_nonneg; lia).
    pose proof (div_half_even_bounds (10 * Z.pos m) (2 ^ (- e)) 10 50) as Hq.
    destruct (Py.div_half_even (10 * Z.pos m) (2 ^ (- e))) as [|t|t]; try lia.
    replace t with (Pos.of_nat (Pos.to_nat t)) by apply Pos2Nat.id.
    apply (tenth_elem (Pos.to_nat t)). lia.
Qed.

Ltac step tac := eapply returns_bind; [tac|intros ? ?; cbv beta in *].

Lemma returns_rating_tenth (user_tests : gmap string string) (conv : bool)
    icon pricing :
  user_tests !! "icon_design_test" = Some icon →
  user_tests !! "pricing_test" = Some pricing →
  returns (session_rating user_tests conv : stmt _)
          (λ r, ∀ x, r = Some x → x ∈ rating_values).
Proof.
  intros Hi Hp. unfold session_rating. destruct conv.
  - step ltac:(by apply returns_subscript). subst.
    eapply (returns_bind _ _ (λ _, True)).
    { destruct (_ || _).
      - step ltac:(apply returns_uniform). by apply returns_ret.
      - by apply returns_ret. }
    intros b1 _.
    step ltac:(by apply returns_subscript). subst.
    eapply (returns_bind _ _ (λ _, True)).
    { destruct (String.eqb pricing "control").
      - step ltac:(apply returns_uniform). by apply returns_ret.
      - by apply returns_ret. }
    intros b2 _.
    step ltac:(apply returns_uniform).
    apply returns_ret. intros x [= <-]. apply rating_is_tenth.
  - by apply returns_ret.
Qed.

(** The four variant fields of a record, read back as an assignment. *)
Lemma drawn_fields (user_tests : gmap string string) icon descr pricing shots :
  drawn_from_catalog user_tests →
  user_tests !! "icon_design_test" = Some icon →
  user_tests !! "description_test" = Some descr →
  user_tests !! "pricing_test" = Some pricing →
  user_tests !! "screenshots_test" = Some shots →
  drawn_from_catalog
    (<["screenshots_test" := shots]>
       (<["pricing_test" := pricing]>
          (<["description_test" := descr]>
             (<["icon_design_test" := icon]> ∅)))).
Proof.
  unfold drawn_from_catalog, generate_test_variants.
  rewrite !Forall_cons. unfold assigned_from. cbn [fst snd variants].
  intros (H1 & H2 & H3 & H4 & _) Hi Hd Hp Hs.
  rewrite Hi in H1. rewrite Hd in H2. rewrite Hp in H3. rewrite Hs in H4.
  repeat split; [..|constructor]; by simplify_map_eq.
Qed.

(** What one pass of the loop guarantees beyond [session_ok]. *)
Lemma returns_one_session_drawn (self : ABTestSimulator) :
  device_types self = known_device_types →
  countries self = known_countries →
  app_genres self = known_genres →
  returns (generate_one_session self : stmt _)
    (λ s, session_drawn s ∧ ∀ x, rating s = Some x → x ∈ rating_values).
Proof.
  intros Hdev Hcty Hgen. unfold generate_one_session.
  rewrite Hdev, Hcty, Hgen.
  step ltac:(by apply (returns_on_entropy _ (λ _, True))).
  step ltac:(by apply (returns_on_faker _ (λ _, True))).
  step ltac:(by apply (returns_choices _ _ (λ x, x ∈ known_age_groups))).
  step ltac:(by apply (returns_choices _ _ (λ x, x ∈ known_device_types))).
  step ltac:(by apply (returns_choices _ _ (λ x, x ∈ known_countries))).
  step ltac:(by apply (returns_choice _ (λ x, x ∈ known_genres))).
  step ltac:(by apply (returns_on_faker _ (λ _, True))).
  step ltac:(by apply (returns_on_faker _ (λ _, True))).
  step ltac:(apply returns_assign_variants).
  match goal with Hdrawn : drawn_from_catalog ?ut |- _ =>
    pose proof (drawn_complete _ Hdrawn) as Hcomplete;
    destruct (complete_lookups _ Hcomplete)
      as (icon & descr & pricing & shots & Hi & Hd & Hp & Hs)
  end.
  match goal with |- context [calculate_conversion_probability ?ut ?a ?d] =>
    destruct (conversion_probability_returns ut a d Hcomplete) as [p Hprob]
  end.
  step ltac:(by apply (returns_lift _ p (λ x, x = p))). subst.
  step ltac:(by apply (returns_on_random _ (λ _, True))).
  step ltac:(by eapply returns_time_spent).
  step ltac:(by eapply returns_rating_tenth).
  step ltac:(by apply returns_subscript).
  step ltac:(by apply returns_subscript).
  step ltac:(by apply returns_subscript).
  step ltac:(by apply returns_subscript).
  step ltac:(by apply (returns_on_entropy _ (λ _, True))).
  subst. apply returns_ret. unfold session_drawn, assignment_of. simpl.
  repeat split; try done. by eapply drawn_fields.
Qed.

Lemma returns_loop_forall (self : ABTestSimulator) (P : SessionRecord → Prop)
    (passes : nat) (sessions : list SessionRecord) :
  returns (generate_one_session self : stmt _) P →
  Forall P sessions →
  returns (sessions_loop self passes sessions : stmt _) (Forall P).
Proof.
  intros Hone. revert sessions.
  induction passes as [|passes IH]; intros sessions Hall; simpl.
  - by apply returns_ret.
  - step ltac:(exact Hone).
    apply IH. apply Forall_app. split; [done|]. by apply Forall_singleton.
Qed.

Lemma init_lists (n days : Z) (w0 w : world) (self : ABTestSimulator) :
  init n days w0 = Ok (self, w) →
  device_types self = known_device_types
  ∧ countries self = known_countries
  ∧ app_genres self = known_genres.
Proof.
  unfold init, bind, on_clock, lift, ret.
  destruct (datetime_now (w_clock w0)) as [now1 c1].
  destruct (PyLib.sub_days now1 days) as [start|]; [|done]. simpl.
  destruct (datetime_now c1) as [now2 c2].
  intros [= <- <-]. by repeat split.
Qed.

Lemma generation_drawn (n days : Z) (w0 w : world) (self : ABTestSimulator) :
  init n days w0 = Ok (self, w) →
  ∃ sessions w',
    generate_user_sessions self w = Ok (sessions, w')
    ∧ Forall (λ s, session_drawn s
                   ∧ ∀ x, rating s = Some x → x ∈ rating_values) sessions.
Proof.
  intros Hinit. destruct (init_lists _ _ _ _ _ Hinit) as (Hdev & Hcty & Hgen).
  destruct (returns_loop_forall self _ (Z.to_nat (num_users self)) []
              (returns_one_session_drawn self Hdev Hcty Hgen)
              (Forall_nil_2 _) w) as (out & w' & Hrun & _ & Hall).
  by exists out, w'.
Qed.

(** X7: generation from a constructed simulator returns, and in every
    record the age group, the device type, the country and the genre
    are members of the lists they are drawn from, and the four variant
    fields form an assignment drawn from the catalog. *)
Theorem records_hold_listed_values (n days : Z) (w0 w : world)
    (self : ABTestSimulator) :
  init n days w0 = Ok (self, w) →
  ∃ sessions w',
    generate_user_sessions self w = Ok (sessions, w')
    ∧ Forall session_drawn sessions.
Proof.
  intros Hinit.
  destruct (generation_drawn _ _ _ _ _ Hinit) as (sessions & w' & Hrun & Hall).
  exists sessions, w'. split; [done|].
  eapply Forall_impl; [exact Hall|]. by intros s [? _].
Qed.

(** X8: generation from a constructed simulator returns, and every
    rating it stores is one of the 41 doubles nearest to 1.0, 1.1, ...,
    5.0: it has one decimal place. *)
Theorem ratings_have_one_decimal (n days : Z) (w0 w : world)
    (self : ABTestSimulator) :
  init n days w0 = Ok (self, w) →
  ∃ sessions w',
    generate_user_sessions self w = Ok (sessions, w')
    ∧ Forall (λ s, ∀ x, rating s = Some x → x ∈ rating_values) sessions.
Proof.
  intros Hinit.
  destruct (generation_drawn _ _ _ _ _ Hinit) as (sessions & w' & Hrun & Hall).
  exists sessions, w'. split; [done|].
  eapply Forall_impl; [exact Hall|]. by intros s [_ ?].
Qed.

Lemma sub_days_cases (t d : Z) :
  (PyLib.sub_days t d = Ok (t - d * 86400000000)
   ∧ Z.abs d ≤ 999999999 ∧ 0 ≤ t - d * 86400000000 < PyLib.datetime_max)
  ∨ (PyLib.sub_days t d = Raise OverflowError
     ∧ (999999999 < Z.abs d
        ∨ ¬ (0 ≤ t - d * 86400000000 < PyLib.datetime_max))).
Proof.
  unfold PyLib.sub_days, PyLib.datetime_ok.
  destruct (Z.leb_spec (Z.abs d) 999999999) as [Hd|Hd]; [|right; split; [done|by left]].
  destruct (Z.leb_spec 0 (t - d * 86400000000)) as [H0|H0];
    destruct (Z.ltb_spec (t - d * 86400000000) PyLib.datetime_max) as [H1|H1];
    cbn [andb]; [left; by repeat split|right; split; [done|right; lia]..].
Qed.

(** X6: the constructor raises nothing but [OverflowError], and raises
    it exactly when the duration is beyond [timedelta]'s 999999999 days
    or the start date falls outside the years 1 to 9999; otherwise it
    stores both arguments as given, with the start date [days] days
    before the first reading of the clock.  The population size plays no
    part. *)
Theorem constructor_fails_only_on_dates (n days : Z) (w : world) :
  let now1 := (datetime_now (w_clock w)).1 in
  let start := now1 - days * 86400000000 in
  (init n days w = Raise OverflowError
   ↔ 999999999 < Z.abs days ∨ ¬ (0 ≤ start < PyLib.datetime_max))
  ∧ (∀ e, init n days w = Raise e → e = OverflowError)
  ∧ (∀ self w', init n days w = Ok (self, w') →
       num_users self = n
       ∧ test_duration_days self = days
       ∧ start_date self = start).
Proof.
  intros now1 start. subst now1 start.
  unfold init, bind, on_clock, lift, ret.
  destruct (datetime_now (w_clock w)) as [now1 c1]. cbn [fst].
  destruct (sub_days_cases now1 days) as [(-> & Hd & Hr)|(-> & Hbad)]; simpl.
  - destruct (datetime_now c1) as [now2 c2].
    split; [split; [done|intros [?|?]; [lia|done]]|].
    split; [done|]. by intros self w' [= <- <-].
  - split; [done|]. split; [by intros e [= <-]|done].
Qed.

Lemma bind_bind {A B D} (m : stmt A) (f : A → stmt B) (g : B → stmt D)
    (w : world) :
  (let* b := (let* a := m in f a) in g b) w
  = (let* a := m in let* b := f a in g b) w.
Proof. unfold bind. by destruct (m w) as [[a w1]|e]. Qed.

Lemma bind_ok {A B} (m : stmt A) (k : A → stmt B) (w w1 : world) (a : A) :
  m w = Ok (a, w1) → (let* x := m in k x) w = k a w1.
Proof. intros Hm. unfold bind. by rewrite Hm. Qed.

Lemma bind_raise {A B} (m : stmt A) (k : A → stmt B) (w : world) e :
  m w = Raise e → (let* x := m in k x) w = Raise e.
Proof. intros Hm. unfold bind. by rewrite Hm. Qed.

Lemma sessions_loop_S (self : ABTestSimulator) (passes : nat)
    (sessions : list SessionRecord) :
  (sessions_loop self (S passes) sessions : stmt _)
  = (let* s := generate_one_session self in
     sessions_loop self passes (sessions ++ [s])).
Proof. reflexivity. Qed.

Lemma sessions_loop_snoc (self : ABTestSimulator) (passes : nat)
    (sessions : list SessionRecord) (w : world) :
  sessions_loop self (S passes) sessions w
  = (let* out := sessions_loop self passes sessions in
     let* s := generate_one_session self in
     ret (out ++ [s])) w.
Proof.
  revert sessions w. induction passes as [|passes IH]; intros sessions w.
  - reflexivity.
  - rewrite (sessions_loop_S self (S passes)).
    rewrite (sessions_loop_S self passes).
    rewrite bind_bind.
    destruct (generate_one_session self w) as [[s w1]|e] eqn:Hone.
    + rewrite !(bind_ok _ _ _ _ _ Hone). apply IH.
    + by rewrite !(bind_raise _ _ _ _ Hone).
Qed.

(** The loop reads the simulator only through the body. *)
Lemma sessions_loop_ext (self1 self2 : ABTestSimulator) (passes : nat)
    (sessions : list SessionRecord) (w : world) :
  (∀ w1 : world, generate_one_session self1 w1 = generate_one_session self2 w1) →
  sessions_loop self1 passes sessions w = sessions_loop self2 passes sessions w.
Proof.
  intros Hone. revert sessions w.
  induction passes as [|passes IH]; intros sessions w; [done|].
  simpl. unfold bind. rewrite Hone.
  destruct (generate_one_session self2 w) as [[s w1]|e]; [apply IH|done].
Qed.

(** X9: the records of a run do not depend on how many follow: with the
    same entropy, clock and tables, the run for [n + 1] users returns the
    records of the run for [n] users followed by one more. *)
Theorem one_more_user_extends_the_run (n days : Z) (entropy : E) (clock : C)
    (db : Database) (sessions : list SessionRecord) :
  0 ≤ n →
  run_generation n days entropy clock db = Ok sessions →
  ∃ s, run_generation (n + 1) days entropy clock db = Ok (sessions ++ [s]).
Proof.
  intros Hn. unfold run_generation.
  set (w0 := module_import entropy clock db).
  destruct (init n days w0) as [[self w]|e] eqn:Hinit;
    unfold bind at 1; rewrite Hinit; [|done].
  destruct (generate_user_sessions self w) as [[out w1]|e] eqn:Hrun; [|done].
  intros [= ->].
  assert (Hinit' : ∃ self', init (n + 1) days w0 = Ok (self', w)
            ∧ num_users self' = n + 1
            ∧ device_types self' = device_types self
            ∧ countries self' = countries self
            ∧ app_genres self' = app_genres self
            ∧ ∀ w2 : world,
                generate_one_session self' w2 = generate_one_session self w2).
  { revert Hinit. unfold init, bind, on_clock, lift, ret.
    destruct (datetime_now (w_clock w0)) as [now1 c1].
    destruct (PyLib.sub_days now1 days) as [start|]; [|done]. simpl.
    destruct (datetime_now c1) as [now2 c2].
    intros [= <- <-]. eexists. split; [reflexivity|]. by repeat split. }
  destruct Hinit' as (self' & Hinit' & Hnum & Hdev & Hcty & Hgen & Hone).
  unfold bind at 1. rewrite Hinit'.
  destruct (init_well_formed _ _ _ _ _ Hinit) as [Hwf Hnum0].
  destruct (returns_one_session self Hwf w1) as (s & w2 & Hs & _ & _).
  exists s. unfold generate_user_sessions in *.
  rewrite Hnum. rewrite Hnum0 in Hrun.
  replace (Z.to_nat (n + 1)) with (S (Z.to_nat n)) by lia.
  rewrite sessions_loop_snoc. unfold bind at 1.
  rewrite (sessions_loop_ext self' self) by exact Hone.
  rewrite Hrun. unfold bind, ret. rewrite Hone, Hs. reflexivity.
Qed.

End Records.

(** ** The variant definitions table: [insert_test_variants] *)

(** A row of [ab_test_variants]. *)
Record VariantRow : Type := {
  vr_test_id : string;
  vr_test_name : string;
  vr_variant_key : string;
  vr_variant_name : string;
  vr_variant_description : string }.

Definition variant_row (test_info : TestInfo)
    (variant : string * VariantInfo) : VariantRow :=
  {| vr_test_id := test_id test_info;
     vr_test_name := test_name test_info;
     vr_variant_key := variant.1;
     vr_variant_name := name variant.2;
     vr_variant_description := description variant.2 |}.

(** The list [variant_data] that the two loops of lines 309 to 317
    build: the tests in order, and under each test its variants in
    order. *)
Fixpoint variant_data (tests : list (string * TestInfo)) : list VariantRow :=
  match tests with
  | [] => []
  | (_, test_info) :: rest =>
      map (variant_row test_info) (variants test_info) ++ variant_data rest
  end.

(** [PRIMARY KEY (test_id, variant_key)] *)
Definition variant_pk (r : VariantRow) : string * string :=
  (vr_test_id r, vr_variant_key r).

(** The [VARCHAR(n)] columns: a longer value fails the statement. *)
Definition variant_row_fits (r : VariantRow) : Prop :=
  (String.length (vr_test_id r) ≤ 50
   ∧ String.length (vr_test_name r) ≤ 200
   ∧ String.length (vr_variant_key r) ≤ 20
   ∧ String.length (vr_variant_name r) ≤ 100)%nat.

#[global] Instance variant_row_fits_dec r : Decision (variant_row_fits r).
Proof. unfold variant_row_fits. apply _. Defined.

(** One [INSERT ... VALUES] with all the rows: it adds all of them or,
    on a value that is too long or a key that is taken, none. *)
Definition variants_insert (table new_rows : list VariantRow)
  : result (list VariantRow) :=
  if bool_decide (Forall variant_row_fits new_rows
                  ∧ NoDup (variant_pk <$> (table ++ new_rows)))
  then Ok (table ++ new_rows)
  else Raise DatabaseError.

(** [insert_test_variants] on the table [ab_test_variants]. *)
Definition insert_test_variants (table : list VariantRow)
  : result (list VariantRow) :=
  variants_insert table (variant_data generate_test_variants).

Section VariantsTable.

Implicit Types (tests : list (string * TestInfo)) (table : list VariantRow).

Lemma variant_data_length tests :
  length (variant_data tests)
  = foldr Nat.add O ((λ t, length (variants t.2)) <$> tests).
Proof.
  induction tests as [|[k info] tests IH]; [done|].
  cbn. by rewrite length_app, length_map, IH.
Qed.

Lemma variant_data_elem tests row :
  row ∈ variant_data tests
  ↔ ∃ t v, t ∈ tests ∧ v ∈ variants t.2 ∧ row = variant_row t.2 v.
Proof.
  induction tests as [|[k info] tests IH].
  - split; [by intros ?%elem_of_nil|].
    by intros (t & v & ?%elem_of_nil & _).
  - cbn [variant_data]. rewrite elem_of_app. split.
    + intros [Hrow|Hrow].
      * apply list_elem_of_In, in_map_iff in Hrow as (v & <- & Hv).
        exists (k, info), v. repeat split; [by left|by apply list_elem_of_In].
      * apply IH in Hrow as (t & v & Ht & Hv & ->).
        exists t, v. repeat split; [by right|done].
    + intros (t & v & [->|Ht]%elem_of_cons & Hv & ->).
      * left. apply list_elem_of_In, in_map_iff. exists v.
        split; [done|by apply list_elem_of_In].
      * right. apply IH. by exists t, v.
Qed.

(** X10: [variant_data] has one row for each variant of each test and
    nothing else: its length is the number of variants over all tests,
    and a row is in it exactly when it is the row of a variant of a test
    of the catalog it is built from. *)
Theorem variant_data_lists_every_variant tests :
  length (variant_data tests)
  = foldr Nat.add O ((λ t, length (variants t.2)) <$> tests)
  ∧ ∀ row, row ∈ variant_data tests
           ↔ ∃ t v, t ∈ tests ∧ v ∈ variants t.2 ∧ row = variant_row t.2 v.
Proof. split; [apply variant_data_length|apply variant_data_elem]. Qed.

Lemma variant_data_ids tests row :
  row ∈ variant_data tests → vr_test_id row ∈ (λ t, test_id t.2) <$> tests.
Proof.
  intros (t & v & Ht & _ & ->)%variant_data_elem.
  apply list_elem_of_fmap. by exists t.
Qed.

(** Appending rows that are already there breaks the key. *)
Lemma repeated_rows_clash {A K} (f : A → K) (table rows more : list A) :
  rows ≠ [] → ¬ NoDup (f <$> ((table ++ rows ++ more) ++ rows)).
Proof.
  intros Hne Hnd. destruct rows as [|r rows]; [done|].
  rewrite !fmap_app in Hnd. apply NoDup_app in Hnd as (_ & Hdisj & _).
  apply (Hdisj (f r)).
  - rewrite !elem_of_app. right; left. apply list_elem_of_fmap_2. by left.
  - apply list_elem_of_fmap_2. by left.
Qed.

Lemma variant_data_pk_nodup tests :
  NoDup ((λ t, test_id t.2) <$> tests) →
  Forall (λ t, NoDup (variants t.2).*1) tests →
  NoDup (variant_pk <$> variant_data tests).
Proof.
  induction tests as [|[k info] tests IH]; [constructor|].
  rewrite fmap_cons, Forall_cons, NoDup_cons. cbn [snd].
  intros [Hid Hids] [Hkeys Hall]. cbn [variant_data].
  rewrite fmap_app. apply NoDup_app. split; [|split; [|by apply IH]].
  - apply (NoDup_fmap_1 snd).
    rewrite <- !list_fmap_compose.
    by replace (snd ∘ variant_pk <$> map (variant_row info) (variants info))
      with ((variants info).*1)
      by (rewrite <- (list_fmap_compose (variant_row info)); done).
  - intros pk (r & -> & Hr)%list_elem_of_fmap (r' & Heq & Hr')%list_elem_of_fmap.
    apply list_elem_of_In, in_map_iff in Hr as (v & <- & _).
    apply variant_data_ids in Hr'. apply Hid.
    unfold variant_pk in Heq. simpl in Heq. by injection Heq as -> _.
Qed.

Lemma catalog_keys_distinct :
  NoDup ((λ t, test_id t.2) <$> generate_test_variants)
  ∧ Forall (λ t, NoDup (variants t.2).*1) generate_test_variants.
Proof.
  split.
  - apply (bool_decide_unpack
             (NoDup ((λ t, test_id t.2) <$> generate_test_variants))).
    by vm_compute.
  - unfold generate_test_variants. repeat apply Forall_cons_2;
      [..|apply Forall_nil_2];
      match goal with |- NoDup ?l => apply (bool_decide_unpack (NoDup l)) end;
      by vm_compute.
Qed.

Lemma variants_insert_twice table rows table' :
  rows ≠ [] →
  variants_insert table rows = Ok table' →
  variants_insert table' rows = Raise DatabaseError.
Proof.
  intros Hne. unfold variants_insert.
  case_bool_decide as H1; [|done]. intros [= <-].
  rewrite bool_decide_eq_false_2; [done|].
  intros [_ Hnd]. apply (repeated_rows_clash variant_pk table rows [] Hne).
  by rewrite app_nil_r.
Qed.

(** X11: on an empty table [insert_test_variants] succeeds and leaves
    the ten rows of the catalog, whose keys [(test_id, variant_key)] are
    pairwise distinct; a second call, on any table on which a first call
    succeeded, fails on the primary key. *)
Theorem variants_are_inserted_once :
  insert_test_variants [] = Ok (variant_data generate_test_variants)
  ∧ length (variant_data generate_test_variants) = 10%nat
  ∧ NoDup (variant_pk <$> variant_data generate_test_variants)
  ∧ ∀ table table',
      insert_test_variants table = Ok table' →
      insert_test_variants table' = Raise DatabaseError.
Proof.
  destruct catalog_keys_distinct as [Hids Hkeys].
  pose proof (variant_data_pk_nodup _ Hids Hkeys) as Hnd.
  split; [|split; [reflexivity|split; [exact Hnd|]]].
  - unfold insert_test_variants, variants_insert.
    rewrite app_nil_l, bool_decide_eq_true_2; [done|].
    split; [|exact Hnd].
    apply (bool_decide_unpack
             (Forall variant_row_fits (variant_data generate_test_variants))).
    by vm_compute.
  - intros table table'. unfold insert_test_variants.
    by apply variants_insert_twice.
Qed.

End VariantsTable.

(** ** The columns of the summary rows *)

Section SummaryRows.

Context {G N F E C : Type}.
Context `{!RandomModule G, !NumpyRandom N, !FakerProvider F,
          !OsEntropy E, !WallClock C}.

Local Abbreviation world := (@World G N F E C).

Implicit Types (rows group : list SessionRow) (key : SessionRow → string).

Lemma avg_of_map {A} (f : A → Q) (l : list A) :
  l ≠ [] →
  Sql.avg (map (λ a, Some (f a)) l)
  = Some (Qdiv (fold_left Qplus (map f l) 0%Q)
               (inject_Z (Z.of_nat (length l)))).
Proof.
  intros Hne. unfold Sql.avg. rewrite avg_fold.
  assert (Hvals : omap id (map (λ a, Some (f a)) l) = map f l).
  { clear Hne. induction l as [|a l IH]; [done|]. cbn. f_equal. exact IH. }
  rewrite Hvals, length_map, Z.add_0_l.
  destruct (Z.eqb_spec (Z.of_nat (length l)) 0) as [Hz|_]; [|done].
  destruct l; [done|simpl in Hz; lia].
Qed.

Lemma inject_Z_succ (n : nat) :
  (inject_Z (Z.of_nat (S n)) == inject_Z (Z.of_nat n) + 1)%Q.
Proof. by rewrite Nat2Z.inj_succ, <- Z.add_1_r, inject_Z_plus. Qed.

Lemma qsum_bounds (qs : list Q) (lo hi a : Q) :
  Forall (λ q, (lo <= q <= hi)%Q) qs →
  (a + inject_Z (Z.of_nat (length qs)) * lo <= fold_left Qplus qs a
   ∧ fold_left Qplus qs a <= a + inject_Z (Z.of_nat (length qs)) * hi)%Q.
Proof.
  intros Hall. revert a.
  induction Hall as [|q qs [Hlo Hhi] _ IH]; intros a.
  - change (inject_Z (Z.of_nat (length (@nil Q)))) with 0%Q.
    cbn [fold_left]. split; lra.
  - cbn [fold_left length]. destruct (IH (a + q)%Q) as [IHlo IHhi].
    rewrite inject_Z_succ. split; lra.
Qed.

Lemma qmean_bounds (qs : list Q) (lo hi : Q) :
  qs ≠ [] →
  Forall (λ q, (lo <= q <= hi)%Q) qs →
  (lo <= fold_left Qplus qs 0 / inject_Z (Z.of_nat (length qs))
   ∧ fold_left Qplus qs 0 / inject_Z (Z.of_nat (length qs)) <= hi)%Q.
Proof.
  intros Hne Hall. destruct (qsum_bounds qs lo hi 0 Hall) as [Hlo Hhi].
  assert (Hpos : (0 < inject_Z (Z.of_nat (length qs)))%Q).
  { change 0%Q with (inject_Z 0). rewrite <- Zlt_Qlt.
    destruct qs; [done|simpl; lia]. }
  split.
  - apply Qle_shift_div_l; [done|]. lra.
  - apply Qle_shift_div_r; [done|]. lra.
Qed.

Lemma converted_count_cons (r : SessionRow) group :
  converted_count (r :: group)
  = (if row_converted r then 1 else 0) + converted_count group.
Proof.
  unfold converted_count. rewrite filter_cons.
  destruct (row_converted r).
  - rewrite decide_True by done. simpl length. lia.
  - rewrite decide_False by done. lia.
Qed.

Lemma converted_qsum group (a : Q) :
  (fold_left Qplus
     (map (λ c : bool, if c then 1 else 0) (map row_converted group)) a
   == a + inject_Z (converted_count group))%Q.
Proof.
  revert a. induction group as [|r group IH]; intros a.
  - change (inject_Z (converted_count [])) with 0%Q. cbn [map fold_left]. lra.
  - cbn [map fold_left]. rewrite IH, converted_count_cons, inject_Z_plus.
    destruct (row_converted r).
    + change (inject_Z 1) with 1%Q. lra.
    + change (inject_Z 0) with 0%Q. lra.
Qed.

Lemma converted_count_bounds group :
  0 ≤ converted_count group ≤ Z.of_nat (length group).
Proof.
  unfold converted_count.
  pose proof (length_filter (λ r, row_converted r = true) group). lia.
Qed.

Lemma summary_rows_elem test_name (groups : list (string * list SessionRow))
    out row :
  summary_rows test_name groups = Ok out → row ∈ out →
  ∃ k group, (k, group) ∈ groups ∧ summary_row test_name k group = Ok row.
Proof.
  revert out. induction groups as [|[k group] groups IH]; intros out; simpl.
  - by intros [= <-] ?%elem_of_nil.
  - destruct (summary_row test_name k group) as [r|e] eqn:Hr; [|done]. simpl.
    destruct (summary_rows test_name groups) as [rs|e] eqn:Hrs; [|done]. simpl.
    intros [= <-] [ -> | Hin ]%elem_of_cons.
    + exists k, group. by split; [left|].
    + destruct (IH rs eq_refl Hin) as (k' & g' & Hin' & Hrow).
      exists k', g'. by split; [right|].
Qed.

Lemma summary_rows_row test_name (groups : list (string * list SessionRow))
    out k group :
  summary_rows test_name groups = Ok out → (k, group) ∈ groups →
  ∃ row, row ∈ out ∧ summary_row test_name k group = Ok row.
Proof.
  revert out. induction groups as [|[k0 group0] groups IH]; intros out; simpl.
  - by intros _ ?%elem_of_nil.
  - destruct (summary_row test_name k0 group0) as [r|e] eqn:Hr; [|done]. simpl.
    destruct (summary_rows test_name groups) as [rs|e] eqn:Hrs; [|done]. simpl.
    intros [= <-] [ [= -> ->] | Hin ]%elem_of_cons.
    + exists r. by split; [left|].
    + destruct (IH rs eq_refl Hin) as (row & Hrow & Hsel).
      exists row. by split; [right|].
Qed.

(** The columns of a row, from the sessions of its group. *)
Lemma summary_row_columns test_name k group row :
  group ≠ [] →
  summary_row test_name k group = Ok row →
  describes test_name (k, group) row
  ∧ conversion_rate row
    = Qdiv (fold_left Qplus
              (map (λ c : bool, if c then 1%Q else 0%Q)
                   (map row_converted group)) 0%Q)
           (inject_Z (Z.of_nat (length group)))
  ∧ avg_time_spent row
    = Qdiv (fold_left Qplus
              (map (λ r, inject_Z (row_time_spent_seconds r)) group) 0%Q)
           (inject_Z (Z.of_nat (length group)))
  ∧ avg_rating row = Sql.avg_numeric (map row_rating group).
Proof.
  intros Hne.
  destruct (summary_row_ok test_name k group Hne) as (row' & Hrow' & Hdesc).
  rewrite Hrow'. intros [= <-]. split; [done|].
  revert Hrow'. unfold summary_row.
  rewrite (avg_of_map (λ c : bool, if c then 1%Q else 0%Q)
             (map row_converted group)) by (by destruct group).
  rewrite (avg_of_map (λ r, inject_Z (row_time_spent_seconds r)) group) by done.
  intros [= <-]. simpl. by rewrite length_map.
Qed.

(** A row that a statement selects is the row of the sessions that have
    its variant, and there is such a session. *)
Lemma selected_row test_name key rows out row :
  summary_select test_name key rows = Ok out → row ∈ out →
  sessions_of key (variant_key row) rows ≠ []
  ∧ summary_row test_name (variant_key row)
      (sessions_of key (variant_key row) rows) = Ok row.
Proof.
  unfold summary_select. intros Hout Hrow.
  destruct (summary_rows_elem _ _ _ _ Hout Hrow) as (k & group & Hin & Hr).
  destruct (group_by_elem _ _ _ _ Hin) as [-> Hne].
  destruct (summary_row_columns _ _ _ _ Hne Hr) as [(_ & Hk & _) _].
  simpl in Hk. by rewrite Hk.
Qed.

Lemma rate_bounds group :
  group ≠ [] →
  (0 <= fold_left Qplus
          (map (λ c : bool, if c then 1 else 0) (map row_converted group)) 0
        / inject_Z (Z.of_nat (length group))
   ∧ fold_left Qplus
       (map (λ c : bool, if c then 1 else 0) (map row_converted group)) 0
     / inject_Z (Z.of_nat (length group)) <= 1)%Q.
Proof.
  intros Hne.
  set (qs := map (λ c : bool, if c then 1%Q else 0%Q) (map row_converted group)).
  replace (length group) with (length qs)
    by (unfold qs; by rewrite !length_map).
  apply qmean_bounds; [by destruct group|].
  unfold qs. apply Forall_forall. intros q Hq.
  apply list_elem_of_In, in_map_iff in Hq as ([] & <- & _); split; lra.
Qed.

(** X12: a summary statement never fails, and each row it computes
    stands for at least one session: [total_users] is at least 1,
    [conversions] lies between 0 and [total_users], and
    [conversion_rate] lies between 0 and 1. *)
Theorem summary_counts_are_consistent test_name key rows :
  ∃ out,
    summary_select test_name key rows = Ok out
    ∧ ∀ row, row ∈ out →
        1 ≤ total_users row
        ∧ 0 ≤ conversions row ≤ total_users row
        ∧ (0 <= conversion_rate row)%Q ∧ (conversion_rate row <= 1)%Q.
Proof.
  destruct (summary_select_ok test_name key rows) as (out & Hout & _).
  exists out. split; [done|]. intros row Hrow.
  destruct (selected_row _ _ _ _ _ Hout Hrow) as [Hne Hsel].
  destruct (summary_row_columns _ _ _ _ Hne Hsel)
    as ((_ & _ & Htotal & Hconv & _) & Hrate & _).
  cbn [snd] in Htotal, Hconv. rewrite Htotal, Hconv, Hrate.
  pose proof (converted_count_bounds (sessions_of key (variant_key row) rows)).
  destruct (rate_bounds _ Hne) as [Hlo Hhi].
  repeat split; try done; try lia.
  destruct (sessions_of key (variant_key row) rows); [done|simpl; lia].
Qed.

(** X13: in each row, the value computed for [conversion_rate] is
    [conversions] divided by [total_users]. *)
Theorem conversion_rate_is_conversions_per_user test_name key rows :
  ∃ out,
    summary_select test_name key rows = Ok out
    ∧ ∀ row, row ∈ out →
        (conversion_rate row
         == inject_Z (conversions row) / inject_Z (total_users row))%Q.
Proof.
  destruct (summary_select_ok test_name key rows) as (out & Hout & _).
  exists out. split; [done|]. intros row Hrow.
  destruct (selected_row _ _ _ _ _ Hout Hrow) as [Hne Hsel].
  destruct (summary_row_columns _ _ _ _ Hne Hsel)
    as ((_ & _ & Htotal & Hconv & _) & Hrate & _).
  cbn [snd] in Htotal, Hconv. rewrite Htotal, Hconv, Hrate.
  rewrite converted_qsum. by rewrite Qplus_0_l.
Qed.

(** X14: the means stay within the bounds of what they average: when
    every session has its time between [lo] and [hi], so has
    [avg_time_spent] in every row; when every rating that is a number
    lies between [rlo] and [rhi], so does every [avg_rating] that is a
    number (it is NaN when a rating of the group is NaN, and NULL when
    all are NULL). *)
Theorem averages_stay_within_bounds test_name key rows (lo hi : Z)
    (rlo rhi : Q) :
  Forall (λ r, lo ≤ row_time_spent_seconds r ≤ hi) rows →
  Forall (λ r, ∀ q, row_rating r = Some (Num q) → (rlo <= q)%Q ∧ (q <= rhi)%Q)
         rows →
  ∃ out,
    summary_select test_name key rows = Ok out
    ∧ ∀ row, row ∈ out →
        ((inject_Z lo <= avg_time_spent row)%Q
         ∧ (avg_time_spent row <= inject_Z hi)%Q)
        ∧ (∀ q, avg_rating row = Some (Num q) → (rlo <= q)%Q ∧ (q <= rhi)%Q)
        ∧ ((∃ r, r ∈ rows ∧ key r = variant_key row
                 ∧ row_rating r = Some NumericNaN) →
           avg_rating row = Some NumericNaN).
Proof.
  intros Htime Hrating.
  destruct (summary_select_ok test_name key rows) as (out & Hout & _).
  exists out. split; [done|]. intros row Hrow.
  destruct (selected_row _ _ _ _ _ Hout Hrow) as [Hne Hsel].
  destruct (summary_row_columns _ _ _ _ Hne Hsel)
    as (_ & _ & Havgtime & Havg).
  rewrite Havg, Havgtime.
  set (group := sessions_of key (variant_key row) rows) in *.
  assert (Hsub : ∀ r, r ∈ group → r ∈ rows).
  { intros r Hr. unfold group, sessions_of in Hr.
    by apply list_elem_of_filter in Hr as [_ ?]. }
  rewrite Forall_forall in Htime, Hrating. split; [|split].
  - set (qs := map (λ r, inject_Z (row_time_spent_seconds r)) group).
    replace (length group) with (length qs)
      by (unfold qs; by rewrite length_map).
    apply qmean_bounds; [by destruct group|].
    unfold qs. apply Forall_forall. intros q Hq.
    apply list_elem_of_In, in_map_iff in Hq as (r & <- & Hr%list_elem_of_In).
    rewrite <- !Zle_Qle. apply Htime, Hsub, Hr.
  - intros q. rewrite avg_rating_cases. case_bool_decide; [|done].
    unfold mean_rating.
    destruct (present_ratings group) as [|q0 qs] eqn:Hpresent; [done|].
    intros [= <-]. apply (qmean_bounds (q0 :: qs) rlo rhi); [done|].
    rewrite <- Hpresent. apply Forall_forall. intros q Hq.
    apply list_elem_of_omap in Hq as (r & Hr & Hq).
    apply (Hrating r (Hsub r Hr)).
    unfold rating_number in Hq. by destruct (row_rating r) as [[q'|]|]; simplify_eq.
  - intros (r & Hr & Hkey & Hnan). apply (avg_rating_nan group r); [|done].
    unfold group, sessions_of. by apply list_elem_of_filter.
Qed.

(** *** The whole step *)

Lemma summary_statements_inv tests (db db' : Database) :
  summary_statements tests db = Ok db' →
  ab_test_sessions db' = ab_test_sessions db
  ∧ ∃ outs,
      Forall2 (λ t out, summary_select t.1 t.2 (ab_test_sessions db) = Ok out)
              tests outs
      ∧ ab_test_summary db' = ab_test_summary db ++ concat outs.
Proof.
  revert db. induction tests as [|[test_name key] tests IH]; intros db.
  - intros [= <-]. split; [done|]. exists []. split; [constructor|].
    by rewrite app_nil_r.
  - cbn [summary_statements].
    destruct (summary_select test_name key (ab_test_sessions db))
      as [out|e] eqn:Hout; [|done].
    cbn [rbind]. unfold summary_insert. case_bool_decide; [|done].
    cbn [rbind]. intros Hrun.
    destruct (IH _ Hrun) as (Hs & outs & Hall & Htable).
    cbn [ab_test_sessions ab_test_summary] in Hs, Hall, Htable.
    split; [done|]. exists (out :: outs). split; [by constructor|].
    rewrite Htable. cbn [concat]. by rewrite <- app_assoc.
Qed.

Lemma group_by_has_key key rows (s : SessionRow) :
  s ∈ rows → ∃ group, (key s, group) ∈ Sql.group_by key rows.
Proof.
  intros Hs. rewrite <- (group_by_perm key rows) in Hs.
  apply list_elem_of_In, in_concat in Hs as (grp & Hgrp & Hs).
  apply list_elem_of_In in Hs.
  apply list_elem_of_In, list_elem_of_fmap in Hgrp as ([k group] & -> & Hin).
  cbn [snd] in Hs. exists group.
  destruct (group_by_elem _ _ _ _ Hin) as [Heq _].
  rewrite Heq in Hs. unfold sessions_of in Hs.
  apply list_elem_of_filter in Hs as [<- _]. done.
Qed.

Lemma select_nonempty test_name key rows out :
  rows ≠ [] → summary_select test_name key rows = Ok out → out ≠ [].
Proof.
  intros Hne Hout ->. destruct rows as [|s rows]; [done|].
  destruct (group_by_has_key key (s :: rows) s) as [group Hin]; [by left|].
  unfold summary_select in Hout.
  destruct (summary_rows_row _ _ _ _ _ Hout Hin) as (row & Hrow & _).
  by apply elem_of_nil in Hrow.
Qed.

Lemma summary_statements_twice test_name key rest (db db' : Database) :
  ab_test_sessions db ≠ [] →
  summary_statements ((test_name, key) :: rest) db = Ok db' →
  summary_statements ((test_name, key) :: rest) db' = Raise DatabaseError.
Proof.
  intros Hne Hrun.
  destruct (summary_statements_inv _ _ _ Hrun) as (Hs & outs & Hall & Htable).
  apply Forall2_cons_inv_l in Hall as (out & outs' & Hout & _ & ->).
  cbn [fst snd] in Hout.
  cbn [summary_statements]. rewrite Hs, Hout. cbn [rbind].
  unfold summary_insert. rewrite bool_decide_eq_false_2; [done|].
  rewrite Htable. cbn [concat]. apply repeated_rows_clash.
  by apply (select_nonempty test_name key (ab_test_sessions db)).
Qed.

Lemma summary_statements_empty tests (db : Database) :
  ab_test_sessions db = [] →
  NoDup (summary_key <$> ab_test_summary db) →
  summary_statements tests db = Ok db.
Proof.
  destruct db as [sessions table]. cbn [ab_test_sessions ab_test_summary].
  intros -> Hnd. induction tests as [|[test_name key] tests IH]; [done|].
  cbn [summary_statements ab_test_sessions ab_test_summary].
  change (summary_select test_name key []) with (@Ok (list SummaryRow) []).
  cbn [rbind]. unfold summary_insert.
  rewrite app_nil_r, bool_decide_eq_true_2 by done. cbn [rbind]. exact IH.
Qed.

Lemma filter_by_key {A K} `{!EqDecision K} (f : A → K) (l : list A) (x : A) :
  NoDup (f <$> l) → x ∈ l → filter (λ y, f y = f x) l = [x].
Proof.
  induction l as [|y l IH]; [by intros _ ?%elem_of_nil|].
  rewrite fmap_cons, NoDup_cons. intros [Hnot Hnd] [ -> | Hin ]%elem_of_cons.
  - rewrite filter_cons_True by done. f_equal. apply filter_none.
    apply Forall_forall. intros z Hz Heq. apply Hnot. rewrite <- Heq.
    by apply list_elem_of_fmap_2.
  - rewrite filter_cons_False; [by apply IH|].
    intros Heq. apply Hnot. rewrite Heq. by apply list_elem_of_fmap_2.
Qed.

(** X15: run on an empty summary table, [generate_summary_statistics]
    leaves, for every test and every variant that some session has,
    exactly one row with that test name and variant key; the row counts
    the sessions of that variant and the converted ones among them. *)
Theorem each_variant_present_gets_one_row (w : world) :
  ab_test_summary (w_db w) = [] →
  ∃ w',
    generate_summary_statistics w = Ok (tt, w')
    ∧ ∀ test_name key s,
        (test_name, key) ∈ summary_tests →
        s ∈ ab_test_sessions (w_db w) →
        ∃ row,
          filter (λ r, variant_key r = key s ∧ sum_test_name r = test_name)
                 (ab_test_summary (w_db w')) = [row]
          ∧ total_users row
            = Z.of_nat (length (sessions_of key (key s)
                                  (ab_test_sessions (w_db w))))
          ∧ conversions row
            = converted_count (sessions_of key (key s)
                                 (ab_test_sessions (w_db w))).
Proof.
  intros Hempty.
  destruct (summary_statements_ok summary_tests (w_db w))
    as (outs & Hsel & Hrun).
  { apply summary_tests_names_nodup. }
  { rewrite Hempty. constructor. }
  { rewrite Hempty. constructor. }
  unfold generate_summary_statistics. rewrite Hrun.
  eexists. split; [reflexivity|].
  intros test_name key s Hin Hs. cbn [w_db ab_test_summary].
  rewrite Hempty, app_nil_l.
  destruct (rows_of_test _ _ _ test_name key summary_tests_names_nodup Hsel Hin)
    as (out & Hout & Hfilter).
  rewrite <- list_filter_filter, Hfilter.
  destruct (summary_select_ok test_name key (ab_test_sessions (w_db w)))
    as (out' & Hout' & _ & _ & _ & Hkeys & _).
  assert (out' = out) as -> by congruence.
  destruct (group_by_has_key key _ s Hs) as [group Hgroup].
  destruct (group_by_elem _ _ _ _ Hgroup) as [Heq Hne].
  unfold summary_select in Hout.
  destruct (summary_rows_row _ _ _ _ _ Hout Hgroup) as (row & Hrow & Hsummary).
  destruct (summary_row_columns _ _ _ _ Hne Hsummary)
    as ((_ & Hk & Htotal & Hconv & _) & _).
  cbn [fst snd] in Hk, Htotal, Hconv. subst group.
  exists row. split; [|by split].
  rewrite <- Hk. by apply filter_by_key.
Qed.

(** X16: [generate_summary_statistics] cannot be run twice on the same
    sessions: once it has succeeded on a table of sessions that is not
    empty, a second call fails on the primary key of the summary table. *)
Theorem summary_cannot_be_rerun (w w' : world) :
  ab_test_sessions (w_db w) ≠ [] →
  generate_summary_statistics w = Ok (tt, w') →
  generate_summary_statistics w' = Raise DatabaseError.
Proof.
  intros Hne. unfold generate_summary_statistics.
  destruct (summary_statements summary_tests (w_db w)) as [db'|e] eqn:Hrun;
    [|done].
  intros [= <-]. cbn [w_db].
  assert (Hagain : summary_statements summary_tests db' = Raise DatabaseError)
    by exact (summary_statements_twice _ _ _ _ _ Hne Hrun).
  by rewrite Hagain.
Qed.

(** X17: on an empty table of sessions the step succeeds and writes
    nothing: the summary table, which satisfies its primary key, is left
    as it was. *)
Theorem empty_sessions_add_no_rows (w : world) :
  ab_test_sessions (w_db w) = [] →
  NoDup (summary_key <$> ab_test_summary (w_db w)) →
  generate_summary_statistics w = Ok (tt, w).
Proof.
  intros Hs Hnd. unfold generate_summary_statistics.
  rewrite (summary_statements_empty _ _ Hs Hnd). by destruct w.
Qed.

End SummaryRows.

(** ** The properties above on known runs *)

Section MoreRuns.

Import Fixture.

Lemma variant_effects_are_ordered_witness :
  complete_assignment sample_assignment
  ∧ probability_below sample_assignment "25-34" "iPad"
      "icon_design_test" "control" "variant_a"
  ∧ probability_below sample_assignment "25-34" "iPad"
      "icon_design_test" "variant_a" "variant_b"
  ∧ probability_below sample_assignment "25-34" "iPad"
      "description_test" "control" "variant_a"
  ∧ probability_below sample_assignment "25-34" "iPad"
      "pricing_test" "variant_b" "variant_a"
  ∧ probability_below sample_assignment "25-34" "iPad"
      "pricing_test" "variant_a" "control"
  ∧ probability_below sample_assignment "25-34" "iPad"
      "screenshots_test" "control" "variant_a".
Proof.
  split.
  - apply (bool_decide_unpack (complete_assignment sample_assignment)).
    vm_compute. exact I.
  - apply (variant_effects_are_ordered sample_assignment "25-34" "iPad").
    apply (bool_decide_unpack (complete_assignment sample_assignment)).
    vm_compute. exact I.
Defined.

Lemma probability_falls_with_age_witness :
  complete_assignment sample_assignment
  ∧ age_below sample_assignment "iPad" "55+" "45-54"
  ∧ age_below sample_assignment "iPad" "45-54" "35-44"
  ∧ age_below sample_assignment "iPad" "35-44" "25-34"
  ∧ age_below sample_assignment "iPad" "25-34" "18-24"
  ∧ ∀ age, age ∉ known_age_groups →
      calculate_conversion_probability sample_assignment age "iPad"
      = calculate_conversion_probability sample_assignment "35-44" "iPad".
Proof.
  split.
  - apply (bool_decide_unpack (complete_assignment sample_assignment)).
    vm_compute. exact I.
  - apply (probability_falls_with_age sample_assignment "iPad").
    apply (bool_decide_unpack (complete_assignment sample_assignment)).
    vm_compute. exact I.
Defined.

Lemma probability_ordered_by_device_witness :
  complete_assignment sample_assignment
  ∧ device_below sample_assignment "25-34" "Mac" "Apple Watch"
  ∧ device_below sample_assignment "25-34" "Apple Watch" "iPad"
  ∧ device_below sample_assignment "25-34" "iPad" "iPhone"
  ∧ ∀ dev, dev ∉ known_device_types →
      calculate_conversion_probability sample_assignment "25-34" dev
      = calculate_conversion_probability sample_assignment "25-34" "iPhone".
Proof.
  split.
  - apply (bool_decide_unpack (complete_assignment sample_assignment)).
    vm_compute. exact I.
  - apply (probability_ordered_by_device sample_assignment "25-34").
    apply (bool_decide_unpack (complete_assignment sample_assignment)).
    vm_compute. exact I.
Defined.

Lemma records_hold_listed_values_witness :
  ∃ self w,
    sample_init = Ok (self, w)
    ∧ ∃ sessions w',
        generate_user_sessions self w = Ok (sessions, w')
        ∧ Forall session_drawn sessions.
Proof.
  eexists _, _. split; [reflexivity|].
  apply (records_hold_listed_values 3 30 (start 0 sample_clock)).
  reflexivity.
Defined.

Lemma ratings_have_one_decimal_witness :
  ∃ self w,
    sample_init = Ok (self, w)
    ∧ ∃ sessions w',
        generate_user_sessions self w = Ok (sessions, w')
        ∧ Forall (λ s, ∀ x, rating s = Some x → x ∈ rating_values) sessions.
Proof.
  eexists _, _. split; [reflexivity|].
  apply (ratings_have_one_decimal 3 30 (start 0 sample_clock)).
  reflexivity.
Defined.

Lemma one_more_user_extends_the_run_witness :
  ∃ sessions,
    0 ≤ 2
    ∧ run_generation 2 30 0%nat sample_clock empty_db = Ok sessions
    ∧ ∃ s, run_generation (2 + 1) 30 0%nat sample_clock empty_db
           = Ok (sessions ++ [s]).
Proof.
  eexists. split; [lia|]. split; [vm_compute; reflexivity|].
  apply (one_more_user_extends_the_run 2 30 0%nat sample_clock empty_db);
    [lia|vm_compute; reflexivity].
Defined.

Lemma averages_stay_within_bounds_witness :
  Forall (λ r, 5 ≤ row_time_spent_seconds r ≤ 71) sample_sessions
  ∧ Forall (λ r, ∀ q, row_rating r = Some (Num q) → (1 <= q)%Q ∧ (q <= 5)%Q)
           sample_sessions
  ∧ ∃ out,
      summary_select "Pricing Strategy Test" row_pricing_variant
        sample_sessions = Ok out
      ∧ ∀ row, row ∈ out →
          ((inject_Z 5 <= avg_time_spent row)%Q
           ∧ (avg_time_spent row <= inject_Z 71)%Q)
          ∧ (∀ q, avg_rating row = Some (Num q) → (1 <= q)%Q ∧ (q <= 5)%Q)
          ∧ ((∃ r, r ∈ sample_sessions
                   ∧ row_pricing_variant r = variant_key row
                   ∧ row_rating r = Some NumericNaN) →
             avg_rating row = Some NumericNaN).
Proof.
  assert (Htime : Forall (λ r, 5 ≤ row_time_spent_seconds r ≤ 71)
                         sample_sessions).
  { repeat constructor; simpl; lia. }
  assert (Hrating : Forall (λ r, ∀ q, row_rating r = Some (Num q) →
                                      (1 <= q)%Q ∧ (q <= 5)%Q)
                           sample_sessions).
  { repeat apply Forall_cons_2; [..|apply Forall_nil_2];
      intros q; simpl; intros [= <-]; split; unfold Qle; simpl; lia. }
  split; [exact Htime|]. split; [exact Hrating|].
  exact (averages_stay_within_bounds "Pricing Strategy Test"
           row_pricing_variant sample_sessions 5 71 1 5 Htime Hrating).
Defined.

Lemma each_variant_present_gets_one_row_witness :
  let w := module_import 0%nat sample_clock sample_db in
  ab_test_summary (w_db w) = []
  ∧ ∃ w',
      generate_summary_statistics w = Ok (tt, w')
      ∧ ∀ test_name key s,
          (test_name, key) ∈ summary_tests →
          s ∈ ab_test_sessions (w_db w) →
          ∃ row,
            filter (λ r, variant_key r = key s ∧ sum_test_name r = test_name)
                   (ab_test_summary (w_db w')) = [row]
            ∧ total_users row
              = Z.of_nat (length (sessions_of key (key s)
                                    (ab_test_sessions (w_db w))))
            ∧ conversions row
              = converted_count (sessions_of key (key s)
                                   (ab_test_sessions (w_db w))).
Proof.
  intros w. split; [reflexivity|].
  apply (each_variant_present_gets_one_row w). reflexivity.
Defined.

Lemma summary_cannot_be_rerun_witness :
  let w := module_import 0%nat sample_clock sample_db in
  ∃ w',
    ab_test_sessions (w_db w) ≠ []
    ∧ generate_summary_statistics w = Ok (tt, w')
    ∧ generate_summary_statistics w' = Raise DatabaseError.
Proof.
  intros w. eexists. split; [discriminate|].
  split; [vm_compute; reflexivity|].
  apply (summary_cannot_be_rerun w); [discriminate|vm_compute; reflexivity].
Defined.

Lemma empty_sessions_add_no_rows_witness :
  let table :=
    [ {| sum_test_name := "App Icon Design Test"; variant_key := "control";
         total_users := 1; conversions := 1; conversion_rate := 1%Q;
         avg_time_spent := 40%Q; avg_rating := Some (Num (43 # 10)) |} ] in
  let w := module_import 0%nat sample_clock
             {| ab_test_sessions := []; ab_test_summary := table |} in
  ab_test_sessions (w_db w) = []
  ∧ NoDup (summary_key <$> ab_test_summary (w_db w))
  ∧ generate_summary_statistics w = Ok (tt, w).
Proof.
  intros table w.
  assert (Hnd : NoDup (summary_key <$> ab_test_summary (w_db w))).
  { apply (bool_decide_unpack _). vm_compute. exact I. }
  split; [reflexivity|]. split; [exact Hnd|].
  apply (empty_sessions_add_no_rows w); [reflexivity|exact Hnd].
Defined.

End MoreRuns.
